(** * Concert venue location sharing: seating chart, booth lines, room locations

    A shallow embedding of the three pieces of the front end that carry logic:

    - [SeatingChart] (src/components/SeatingChart.tsx): the pan/zoom view state,
      the mouse handlers and the click handler with its section hit test;
    - [MerchBoothTracker] (the booth line tracker component): the per-booth
      aggregation of line reports and the report form;
    - [App] (src/App.tsx): the location record written on a click and the
      realtime handler that maintains the list of friends' locations.

    JavaScript numbers are modelled by exact rationals ([Q]), so the
    rounding of doubles is not part of the model; integer-valued fields
    (line lengths, wait times, rounded averages) are in [Z].  The backend
    client ([blink.db], [blink.realtime]) is an external collaborator: its
    collections are modelled by the contract the calls rely on (keyed rows,
    filtered, ordered and limited listings), and a call that fails is an
    input of the model. *)

From Stdlib Require Import ZArith QArith Qround Qminmax Lia Lqa.
From Stdlib Require Import Ascii String List Permutation Sorted OrdersEx.
From Stdlib Require Import DecimalString.
From stdpp Require Import base option list gmap strings.

Import ListNotations.
#[local] Open Scope Z_scope.

(** ** JavaScript built-ins used by the components *)

Module JS.

(** Truthiness of a string: only the empty string is falsy, so the string
    ["0"] is truthy. *)
Definition truthy (s : string) : bool :=
  match s with
  | EmptyString => false
  | String _ _ => true
  end.

(** [s.includes(t)]. *)
Fixpoint includes (s t : string) : bool :=
  String.prefix t s
  || match s with
     | EmptyString => false
     | String _ s' => includes s' t
     end.

Definition is_digit (c : ascii) : bool :=
  (48 <=? nat_of_ascii c)%nat && (nat_of_ascii c <=? 57)%nat.

Definition digit_value (c : ascii) : Z := Z.of_nat (nat_of_ascii c) - 48.

Definition is_space (c : ascii) : bool :=
  let n := nat_of_ascii c in
  (n =? 32)%nat || ((9 <=? n)%nat && (n <=? 13)%nat).

(** One scan of [/\d+/g]: [cur] is the run being read ([None] between runs).
    Every maximal run of digits is one match, left to right. *)
Fixpoint digit_runs (cur : option string) (s : string) : list string :=
  match s with
  | EmptyString =>
      match cur with
      | Some r => [r]
      | None => []
      end
  | String c s' =>
      if is_digit c
      then digit_runs (Some (default EmptyString cur +:+ String c EmptyString)) s'
      else match cur with
           | Some r => r :: digit_runs None s'
           | None => digit_runs None s'
           end
  end.

(** [s.match(/\d+/g)]: the list of matches, or [null] when there is none. *)
Definition match_digits (s : string) : option (list string) :=
  match digit_runs None s with
  | [] => None
  | ms => Some ms
  end.

(** The value of a string of decimal digits, read left to right. *)
Fixpoint decimal_value (acc : Z) (s : string) : Z :=
  match s with
  | EmptyString => acc
  | String c s' => decimal_value (10 * acc + digit_value c) s'
  end.

(** [Number(s)] on a string of decimal digits (the only strings the
    component passes to it); the value is taken exactly. *)
Definition Number (s : string) : Q := inject_Z (decimal_value 0 s).

Definition is_hex_digit (c : ascii) : bool :=
  let n := nat_of_ascii c in
  is_digit c || ((65 <=? n)%nat && (n <=? 70)%nat)
             || ((97 <=? n)%nat && (n <=? 102)%nat).

Definition hex_digit_value (c : ascii) : Z :=
  let n := Z.of_nat (nat_of_ascii c) in
  if is_digit c then n - 48
  else if (n <=? 70) then n - 55 else n - 87.

Fixpoint skip_spaces (s : string) : string :=
  match s with
  | String c s' => if is_space c then skip_spaces s' else s
  | EmptyString => EmptyString
  end.

(** Digits of the given radix at the front of [s], accumulated into a
    value; [None] when [s] does not start with such a digit. *)
Fixpoint radix_prefix (hex : bool) (acc : option Z) (s : string) : option Z :=
  match s with
  | EmptyString => acc
  | String c s' =>
      if hex
      then if is_hex_digit c
           then radix_prefix hex (Some (16 * default 0 acc + hex_digit_value c)) s'
           else acc
      else if is_digit c
           then radix_prefix hex (Some (10 * default 0 acc + digit_value c)) s'
           else acc
  end.

(** [parseInt(s)] without a radix: leading white space is skipped, a sign
    is read, a [0x]/[0X] prefix selects base 16, and the longest prefix of
    digits is converted.  [None] stands for [NaN]. *)
Definition parseInt (s : string) : option Z :=
  let s1 := skip_spaces s in
  let (neg, s2) :=
    match s1 with
    | String "-" r => (true, r)
    | String "+" r => (false, r)
    | _ => (false, s1)
    end in
  let magnitude :=
    match s2 with
    | String "0" (String "x" r) | String "0" (String "X" r) =>
        radix_prefix true None r
    | _ => radix_prefix false None s2
    end in
  (fun m => if neg then - m else m) <$> magnitude.

(** [Math.round(x)]: the nearest integer, halves rounded up. *)
Definition Math_round (x : Q) : Z := Qfloor (x + (1 # 2))%Q.

Definition Math_min4 (a b c d : Q) : Q := Qmin a (Qmin b (Qmin c d)).
Definition Math_max4 (a b c d : Q) : Q := Qmax a (Qmax b (Qmax c d)).

(** [a <= b] and [a < b] on numbers, as the booleans the code branches on. *)
Definition le (a b : Q) : bool := Qle_bool a b.
Definition lt (a b : Q) : bool := negb (Qle_bool b a).

(** [xs.find(p)]. *)
Fixpoint find {A} (p : A -> bool) (xs : list A) : option A :=
  match xs with
  | [] => None
  | x :: xs' => if p x then Some x else find p xs'
  end.

(** [s.split(sep)] for a one-character separator: the pieces between the
    separators, empty pieces kept; never an empty list. *)
Fixpoint split (sep : ascii) (s : string) : list string :=
  match s with
  | EmptyString => [EmptyString]
  | String c s' =>
      if Ascii.eqb c sep then EmptyString :: split sep s'
      else match split sep s' with
           | w :: ws => String c w :: ws
           | [] => [String c EmptyString]
           end
  end.

(** [word[0]]: [None] is [undefined] (the empty word). *)
Definition first_char (w : string) : option ascii :=
  match w with
  | EmptyString => None
  | String c _ => Some c
  end.

(** [cs.join('')] on an array of characters and [undefined]s, which [join]
    reads as empty strings. *)
Fixpoint join_chars (cs : list (option ascii)) : string :=
  match cs with
  | [] => EmptyString
  | Some c :: cs' => String c (join_chars cs')
  | None :: cs' => join_chars cs'
  end.

Definition upper_char (c : ascii) : ascii :=
  let n := nat_of_ascii c in
  if (97 <=? n)%nat && (n <=? 122)%nat then ascii_of_nat (n - 32) else c.

(** [s.toUpperCase()] on ASCII text: the letters a-z are raised, every
    other character is kept. *)
Fixpoint toUpperCase (s : string) : string :=
  match s with
  | EmptyString => EmptyString
  | String c s' => String (upper_char c) (toUpperCase s')
  end.

(** [s.slice(0, n)]. *)
Definition slice_to (n : nat) (s : string) : string := String.substring 0 n s.

(** An integer-valued number in a template literal: its decimal digits,
    with a minus sign when negative. *)
Definition show_int (z : Z) : string := NilZero.string_of_int (Z.to_int z).

End JS.

(** ** Records of the data model

    Each interface of the source is a record in a module of its name, so that
    fields keep their source names ([LineReport.line_length], ...). *)

Module Point.
Record t := mk { x : Q; y : Q }.
End Point.

Module Venue.
Record t := mk {
  id : string;
  name : string;
  description : string;
  seating_chart_data : string
}.
End Venue.

Module VenueSection.
Record t := mk {
  id : string;
  name : string;
  color : string;
  path : string
}.
End VenueSection.

Module VenueData.
Record t := mk { sections : list VenueSection.t }.
End VenueData.

Module User.
Record t := mk {
  id : string;
  email : string;
  displayName : option string
}.
End User.

Module Room.
Record t := mk {
  id : string;
  name : string;
  venue_id : string;
  created_by : string
}.
End Room.

Module UserLocation.
Record t := mk {
  id : string;
  room_id : string;
  user_id : string;
  user_name : string;
  user_avatar : option string;
  x_position : Q;
  y_position : Q;
  section_name : option string;
  seat_info : option string
}.
End UserLocation.

Module MerchBooth.
Record t := mk {
  id : string;
  venue_id : string;
  name : string;
  location_x : Q;
  location_y : Q;
  description : string;
  created_at : string
}.
End MerchBooth.

Module LineReport.
(** [wait_time_minutes : number | null]: [None] is [null]. *)
Record t := mk {
  id : string;
  booth_id : string;
  user_id : string;
  line_length : Z;
  wait_time_minutes : option Z;
  reported_at : string
}.
End LineReport.

Inductive Trend := up | down | stable.

Module BoothStatus.
Record t := mk {
  booth : MerchBooth.t;
  avgLineLength : Z;
  avgWaitTime : Z;
  lastReported : string;
  reportCount : nat;
  trend : Trend
}.
End BoothStatus.

(** ** The seating chart component (src/components/SeatingChart.tsx) *)

Module SeatingChart.

(** The component's view state: [zoom], [pan], [isDragging], [dragStart]. *)
Record State := mkState {
  zoom : Q;
  pan : Point.t;
  isDragging : bool;
  dragStart : Point.t
}.

Definition initial : State :=
  {| zoom := 1; pan := Point.mk 0 0; isDragging := false;
     dragStart := Point.mk 0 0 |}.

Record MouseEvent := mkMouse { button : Z; clientX : Q; clientY : Q }.

(** What [svg.getBoundingClientRect()] is read for. *)
Record DOMRect := mkRect { rect_left : Q; rect_top : Q }.

(** A call of [onLocationSelect(x, y, sectionName)]; [None] is [undefined]. *)
Record Selection := mkSelection {
  sel_x : Q;
  sel_y : Q;
  sel_sectionName : option string
}.

(** [venueData]: the parsed layout, or [{ sections: [] }] when [JSON.parse]
    throws.  [parsed] is the outcome of [JSON.parse(venue.seating_chart_data)],
    [None] when it throws. *)
Definition venueData_of (parsed : option VenueData.t) : VenueData.t :=
  match parsed with
  | Some data => data
  | None => VenueData.mk []
  end.

Section Component.

(** [JSON.parse] at the type the component casts its result to. *)
Variable JSON_parse : string -> option VenueData.t.

Definition venueData (venue : Venue.t) : VenueData.t :=
  venueData_of (JSON_parse (Venue.seating_chart_data venue)).

End Component.

Definition handleZoomIn (st : State) : State :=
  {| zoom := Qmin (zoom st * (12 # 10)) 3; pan := pan st;
     isDragging := isDragging st; dragStart := dragStart st |}.

Definition handleZoomOut (st : State) : State :=
  {| zoom := Qmax (zoom st / (12 # 10)) (1 # 2); pan := pan st;
     isDragging := isDragging st; dragStart := dragStart st |}.

Definition handleReset (st : State) : State :=
  {| zoom := 1; pan := Point.mk 0 0;
     isDragging := isDragging st; dragStart := dragStart st |}.

Definition handleMouseDown (st : State) (e : MouseEvent) : State :=
  if (button e =? 0)%Z
  then {| zoom := zoom st; pan := pan st; isDragging := true;
          dragStart := Point.mk (clientX e - Point.x (pan st))
                                (clientY e - Point.y (pan st)) |}
  else st.

Definition handleMouseMove (st : State) (e : MouseEvent) : State :=
  if isDragging st
  then {| zoom := zoom st;
          pan := Point.mk (clientX e - Point.x (dragStart st))
                          (clientY e - Point.y (dragStart st));
          isDragging := isDragging st; dragStart := dragStart st |}
  else st.

Definition handleMouseUp (st : State) : State :=
  {| zoom := zoom st; pan := pan st; isDragging := false;
     dragStart := dragStart st |}.

(** The click position in chart coordinates (lines 116-117). *)
Definition click_to_logical (rect : DOMRect) (st : State) (e : MouseEvent)
  : Point.t :=
  Point.mk ((clientX e - rect_left rect - Point.x (pan st)) / zoom st)
           ((clientY e - rect_top rect - Point.y (pan st)) / zoom st).

(** The predicate passed to [sections.find] (lines 120-136). *)
Definition section_hit (x y : Q) (section : VenueSection.t) : bool :=
  let pathData := VenueSection.path section in
  if JS.includes pathData "M" && JS.includes pathData "L"
     && JS.includes pathData "Z"
  then
    match map JS.Number <$> JS.match_digits pathData with
    | Some (x1 :: y1 :: x2 :: y2 :: x3 :: y3 :: x4 :: y4 :: _) =>
        JS.le (JS.Math_min4 x1 x2 x3 x4) x
        && JS.le x (JS.Math_max4 x1 x2 x3 x4)
        && JS.le (JS.Math_min4 y1 y2 y3 y4) y
        && JS.le y (JS.Math_max4 y1 y2 y3 y4)
    | _ => false
    end
  else false.

(** [handleChartClick] (lines 109-139).  [svgRef] is [svgRef.current]'s
    bounding rectangle, [None] while the ref is unset.  The result is the
    call of [onLocationSelect], if one is made. *)
Definition handleChartClick (venueData : VenueData.t) (svgRef : option DOMRect)
    (st : State) (e : MouseEvent) : option Selection :=
  if isDragging st then None
  else
    match svgRef with
    | None => None
    | Some rect =>
        let p := click_to_logical rect st e in
        let clickedSection :=
          JS.find (section_hit (Point.x p) (Point.y p))
                  (VenueData.sections venueData) in
        Some (mkSelection (Point.x p) (Point.y p)
                          (VenueSection.name <$> clickedSection))
    end.

(** The [style.transform] of the [svg] element (line 179), as the list of
    transform functions the template string spells out. *)
Inductive TransformFunction :=
| translate (tx ty : Q)
| scale (s : Q).

Definition style_transform (st : State) : list TransformFunction :=
  [translate (Point.x (pan st)) (Point.y (pan st)); scale (zoom st)].

Definition apply_function (f : TransformFunction) (p : Point.t) : Point.t :=
  match f with
  | translate tx ty => Point.mk (Point.x p + tx) (Point.y p + ty)
  | scale s => Point.mk (s * Point.x p) (s * Point.y p)
  end.

(** A transform list is the product of its functions' matrices in the order
    written, so a point of the element's own coordinates goes through the
    list from its last function to its first. *)
Definition apply_transform (fs : list TransformFunction) (p : Point.t)
  : Point.t :=
  foldr apply_function p fs.

(** The box the [svg] element is laid out in on the page, before its
    transform: its top-left corner and its size, in CSS pixels. *)
Record LayoutBox := mkBox {
  box_left : Q;
  box_top : Q;
  box_width : Q;
  box_height : Q
}.

(** [viewBox="0 0 500 500"] (line 172) with the default
    [preserveAspectRatio]: the chart is scaled by one factor to fit the box
    and centred in it. *)
Definition viewBox_scale (box : LayoutBox) : Q :=
  Qmin (box_width box / 500)%Q (box_height box / 500)%Q.

(** A chart point, in CSS pixels from the top-left corner of the box. *)
Definition viewBox_to_box (box : LayoutBox) (p : Point.t) : Point.t :=
  let s := viewBox_scale box in
  Point.mk ((box_width box - 500 * s) / 2 + s * Point.x p)%Q
           ((box_height box - 500 * s) / 2 + s * Point.y p)%Q.

(** The transform is a style of the [svg] element itself (lines 178-180),
    so it moves the whole element, about the centre of its box (the default
    [transform-origin]): where a point of the box, given from the box's
    top-left corner, is shown on the page. *)
Definition transformed (box : LayoutBox) (st : State) (q : Point.t)
  : Point.t :=
  let cx := (box_width box / 2)%Q in
  let cy := (box_height box / 2)%Q in
  let r := apply_transform (style_transform st)
             (Point.mk (Point.x q - cx)%Q (Point.y q - cy)%Q) in
  Point.mk (box_left box + cx + Point.x r)%Q
           (box_top box + cy + Point.y r)%Q.

(** Where a chart point is drawn on the page. *)
Definition render (box : LayoutBox) (st : State) (p : Point.t) : Point.t :=
  transformed box st (viewBox_to_box box p).

(** [svg.getBoundingClientRect()] (line 115).  [ref] and [style] are on the
    same element (lines 169-180), so the rectangle read is that of the
    transformed element: for a positive zoom its origin is where the
    top-left corner of the box is shown. *)
Definition getBoundingClientRect (box : LayoutBox) (st : State) : DOMRect :=
  let corner := transformed box st (Point.mk 0 0) in
  mkRect (Point.x corner) (Point.y corner).

(** The events the [svg] element and the three buttons are wired to. *)
Inductive Event :=
| MouseDown (e : MouseEvent)
| MouseMove (e : MouseEvent)
| MouseUp
| MouseLeave
| Click (e : MouseEvent)
| ZoomInButton
| ZoomOutButton
| ResetButton.

(** One event: the next state and the [onLocationSelect] calls it makes. *)
Definition step (venueData : VenueData.t) (svgRef : option DOMRect)
    (st : State) (ev : Event) : State * list Selection :=
  match ev with
  | MouseDown e => (handleMouseDown st e, [])
  | MouseMove e => (handleMouseMove st e, [])
  | MouseUp | MouseLeave => (handleMouseUp st, [])
  | Click e =>
      (st, match handleChartClick venueData svgRef st e with
           | Some sel => [sel]
           | None => []
           end)
  | ZoomInButton => (handleZoomIn st, [])
  | ZoomOutButton => (handleZoomOut st, [])
  | ResetButton => (handleReset st, [])
  end.

Fixpoint run (venueData : VenueData.t) (svgRef : option DOMRect)
    (st : State) (evs : list Event) : State * list Selection :=
  match evs with
  | [] => (st, [])
  | ev :: evs' =>
      let (st1, out1) := step venueData svgRef st ev in
      let (st2, out2) := run venueData svgRef st1 evs' in
      (st2, out1 ++ out2)
  end.

(** [getInitials] (lines 67-74). *)
Definition getInitials (name : string) : string :=
  JS.slice_to 2
    (JS.toUpperCase (JS.join_chars (map JS.first_char (JS.split " " name)))).

(** The caption of a marker (line 257): [split(' ')[0]] is the first piece
    of the name. *)
Definition marker_caption (currentUserId : string) (location : UserLocation.t)
  : string :=
  if String.eqb (UserLocation.user_id location) currentUserId then "You"
  else match JS.split " " (UserLocation.user_name location) with
       | w :: _ => w
       | [] => EmptyString
       end.

End SeatingChart.

(** ** The backend collections the components call

    [blink.db] is outside the repository; the model keeps what the calls
    rely on.  [user_locations] is keyed by row id ([upsert]); [line_reports]
    only ever grows ([create]); listings filter, order and limit. *)

Module Db.

Record t := mk {
  merch_booths : list MerchBooth.t;
  line_reports : list LineReport.t;
  user_locations : gmap string UserLocation.t
}.

(** Stable insertion sort: [x] is put before the first element it is
    [le]-below, so equal keys keep their order. *)
Fixpoint insert_by {A} (le : A -> A -> bool) (x : A) (l : list A) : list A :=
  match l with
  | [] => [x]
  | y :: l' => if le x y then x :: l else y :: insert_by le x l'
  end.

Definition sort_by {A} (le : A -> A -> bool) (l : list A) : list A :=
  foldr (insert_by le) [] l.

(** The order of two timestamps as strings; ISO-8601 strings of the same
    form ([toISOString]) order as their instants do. *)
Definition string_le (a b : string) : bool :=
  match OrdersEx.String_as_OT.compare a b with
  | Gt => false
  | _ => true
  end.

(** [orderBy: { reported_at: 'desc' }]. *)
Definition newer_first (a b : LineReport.t) : bool :=
  string_le (LineReport.reported_at b) (LineReport.reported_at a).

(** [merch_booths.list({ where: { venue_id } })]. *)
Definition list_merch_booths (db : t) (venueId : string) : list MerchBooth.t :=
  filter (fun b => MerchBooth.venue_id b = venueId) (merch_booths db).

(** [line_reports.list({ where: { booth_id }, orderBy: { reported_at:
    'desc' }, limit })]. *)
Definition list_line_reports (db : t) (boothId : string) (limit : nat)
  : list LineReport.t :=
  take limit
    (sort_by newer_first
       (filter (fun r => LineReport.booth_id r = boothId) (line_reports db))).

(** [line_reports.create(row)]. *)
Definition create_line_report (db : t) (row : LineReport.t) : t :=
  {| merch_booths := merch_booths db;
     line_reports := line_reports db ++ [row];
     user_locations := user_locations db |}.

(** [user_locations.upsert(row)]: the row replaces the one of the same id. *)
Definition upsert_user_location (db : t) (row : UserLocation.t) : t :=
  {| merch_booths := merch_booths db;
     line_reports := line_reports db;
     user_locations := <[UserLocation.id row := row]> (user_locations db) |}.

(** [user_locations.list({ where: { room_id } })]; the order of the rows
    is the backend's. *)
Definition list_user_locations (db : t) (roomId : string)
  : list UserLocation.t :=
  filter (fun l => UserLocation.room_id l = roomId)
         (map snd (map_to_list (user_locations db))).

(** [user_locations.delete(id)]. *)
Definition delete_user_location (db : t) (id : string) : t :=
  {| merch_booths := merch_booths db;
     line_reports := line_reports db;
     user_locations := delete id (user_locations db) |}.

End Db.

(** ** The booth line tracker component *)

Module MerchBoothTracker.

(** The component state that the two functions read and write. *)
Record State := mkState {
  boothStatuses : list BoothStatus.t;
  loading : bool;
  selectedBooth : string;
  reportLineLength : string;
  reportWaitTime : string;
  isReporting : bool;
  user : option User.t
}.

Definition sum_line_length (rs : list LineReport.t) : Z :=
  fold_left (fun sum report => sum + LineReport.line_length report) rs 0.

(** [report.wait_time_minutes || 0]. *)
Definition wait_or_zero (report : LineReport.t) : Z :=
  match LineReport.wait_time_minutes report with
  | Some w => w
  | None => 0
  end.

Definition has_wait_time (r : LineReport.t) : bool :=
  match LineReport.wait_time_minutes r with
  | Some _ => true
  | None => false
  end.

Definition sum_wait_time (rs : list LineReport.t) : Z :=
  fold_left (fun sum report => sum + wait_or_zero report) rs 0.

Definition length_Q {A} (l : list A) : Q := inject_Z (Z.of_nat (length l)).

(** Lines 97-104. *)
Definition compute_trend (recentReports : list LineReport.t) : Trend :=
  if (6 <=? length recentReports)%nat
  then
    let recent3 :=
      (inject_Z (sum_line_length (take 3 recentReports)) / 3)%Q in
    let previous3 :=
      (inject_Z (sum_line_length (take 3 (drop 3 recentReports))) / 3)%Q in
    if JS.lt (previous3 + (3 # 10)) recent3 then up
    else if JS.lt recent3 (previous3 - (3 # 10)) then down
    else stable
  else stable.

(** The body of the loop over booths (lines 90-124). *)
Definition booth_status (booth : MerchBooth.t)
    (recentReports : list LineReport.t) : BoothStatus.t :=
  match recentReports with
  | first :: _ =>
      let avgLineLength :=
        (inject_Z (sum_line_length recentReports) / length_Q recentReports)%Q in
      let reportsWithWaitTime := List.filter has_wait_time recentReports in
      let avgWaitTime :=
        if (0 <? length reportsWithWaitTime)%nat
        then (inject_Z (sum_wait_time reportsWithWaitTime)
              / length_Q reportsWithWaitTime)%Q
        else 0%Q in
      {| BoothStatus.booth := booth;
         BoothStatus.avgLineLength := JS.Math_round avgLineLength;
         BoothStatus.avgWaitTime := JS.Math_round avgWaitTime;
         BoothStatus.lastReported := LineReport.reported_at first;
         BoothStatus.reportCount := length recentReports;
         BoothStatus.trend := compute_trend recentReports |}
  | [] =>
      {| BoothStatus.booth := booth;
         BoothStatus.avgLineLength := 0;
         BoothStatus.avgWaitTime := 0;
         BoothStatus.lastReported := "";
         BoothStatus.reportCount := 0;
         BoothStatus.trend := stable |}
  end.

Definition shorter_line (a b : BoothStatus.t) : bool :=
  (BoothStatus.avgLineLength a <=? BoothStatus.avgLineLength b)%Z.

(** The statuses [loadBoothStatuses] computes from the store (lines 76-128). *)
Definition compute_statuses (db : Db.t) (venueId : string)
  : list BoothStatus.t :=
  Db.sort_by shorter_line
    (map (fun booth =>
            booth_status booth
              (Db.list_line_reports db (MerchBooth.id booth) 20))
         (Db.list_merch_booths db venueId)).

(** The backend calls a run makes, in order. *)
Inductive Call :=
| CreateLineReport (row : LineReport.t)
| ListMerchBooths (venueId : string)
| ListLineReports (boothId : string).

(** What the run cannot read from the component: the clock, the random
    suffix of the id, and whether the backend answers. *)
Record Env := mkEnv {
  now_iso : string;
  now_ms : string;
  random_suffix : string;
  create_ok : bool;
  list_ok : bool
}.

(** [loadBoothStatuses]: on a backend error the statuses are kept. *)
Definition loadBoothStatuses (env : Env) (venueId : string) (db : Db.t)
    (st : State) : State * list Call :=
  if list_ok env
  then
    ({| boothStatuses := compute_statuses db venueId;
        loading := false;
        selectedBooth := selectedBooth st;
        reportLineLength := reportLineLength st;
        reportWaitTime := reportWaitTime st;
        isReporting := isReporting st;
        user := user st |},
     ListMerchBooths venueId
       :: map (fun b => ListLineReports (MerchBooth.id b))
              (Db.list_merch_booths db venueId))
  else
    ({| boothStatuses := boothStatuses st;
        loading := false;
        selectedBooth := selectedBooth st;
        reportLineLength := reportLineLength st;
        reportWaitTime := reportWaitTime st;
        isReporting := isReporting st;
        user := user st |},
     [ListMerchBooths venueId]).

(** The outcome of [submitReport]. *)
Inductive Outcome :=
| Ignored
    (* the guard of line 147 returned *)
| NotANumber
    (* [parseInt] gave [NaN]: no value of the form's selects does *)
| Ran (st : State) (db : Db.t) (calls : list Call).

Definition reset_form (st : State) : State :=
  {| boothStatuses := boothStatuses st;
     loading := loading st;
     selectedBooth := "";
     reportLineLength := "";
     reportWaitTime := "";
     isReporting := false;
     user := user st |}.

Definition stop_reporting (st : State) : State :=
  {| boothStatuses := boothStatuses st;
     loading := loading st;
     selectedBooth := selectedBooth st;
     reportLineLength := reportLineLength st;
     reportWaitTime := reportWaitTime st;
     isReporting := false;
     user := user st |}.

(** The row passed to [create] (lines 151-158); [None] when a [parseInt]
    gives [NaN]. *)
Definition new_report (env : Env) (st : State) (u : User.t)
  : option LineReport.t :=
  line_length ← JS.parseInt (reportLineLength st);
  wait_time_minutes ←
    (if JS.truthy (reportWaitTime st)
     then Some <$> JS.parseInt (reportWaitTime st)
     else Some None);
  Some {| LineReport.id :=
            "report_" +:+ now_ms env +:+ "_" +:+ random_suffix env;
          LineReport.booth_id := selectedBooth st;
          LineReport.user_id := User.id u;
          LineReport.line_length := line_length;
          LineReport.wait_time_minutes := wait_time_minutes;
          LineReport.reported_at := now_iso env |}.

(** [submitReport] (lines 146-172). *)
Definition submitReport (env : Env) (venueId : string) (db : Db.t)
    (st : State) : Outcome :=
  match user st with
  | Some u =>
      if JS.truthy (selectedBooth st) && JS.truthy (reportLineLength st)
      then
        match new_report env st u with
        | None => NotANumber
        | Some row =>
            if create_ok env
            then
              let db' := Db.create_line_report db row in
              let (st', calls) := loadBoothStatuses env venueId db' st in
              Ran (reset_form st') db' (CreateLineReport row :: calls)
            else Ran (stop_reporting st) db [CreateLineReport row]
        end
      else Ignored
  | None => Ignored
  end.

(** The [value]s of the two selects of the form (lines 256-259, 273-278). *)
Definition line_length_values : list string := ["0"; "1"; "2"; "3"].
Definition wait_time_values : list string :=
  ["0"; "5"; "10"; "15"; "20"; "30"].

(** The [disabled] attribute of the submit button (line 285). *)
Definition submit_disabled (st : State) : bool :=
  negb (JS.truthy (selectedBooth st))
  || negb (JS.truthy (reportLineLength st))
  || isReporting st.

(** [LINE_LENGTH_LABELS[n]] (lines 43-48); [None] is [undefined]. *)
Definition LINE_LENGTH_LABELS (n : Z) : option string :=
  if (n =? 0)%Z then Some "No Line"
  else if (n =? 1)%Z then Some "Short"
  else if (n =? 2)%Z then Some "Medium"
  else if (n =? 3)%Z then Some "Long"
  else None.

(** [LINE_LENGTH_COLORS[n]] (lines 50-55). *)
Definition LINE_LENGTH_COLORS (n : Z) : option string :=
  if (n =? 0)%Z then Some "bg-green-500"
  else if (n =? 1)%Z then Some "bg-yellow-500"
  else if (n =? 2)%Z then Some "bg-orange-500"
  else if (n =? 3)%Z then Some "bg-red-500"
  else None.

(** [getTimeAgo] (lines 182-193).  [now] is [new Date().getTime()];
    [getTime timestamp] is [new Date(timestamp).getTime()], [None] when it
    is [NaN], in which case every comparison fails. *)
Definition getTimeAgo (getTime : string -> option Z) (now : Z)
    (timestamp : string) : string :=
  if negb (JS.truthy timestamp) then "No reports"
  else
    match getTime timestamp with
    | None => "Over 24h ago"
    | Some reported =>
        let diffMinutes := (now - reported) / (1000 * 60) in
        if (diffMinutes <? 1)%Z then "Just now"
        else if (diffMinutes <? 60)%Z then JS.show_int diffMinutes +:+ "m ago"
        else
          let diffHours := diffMinutes / 60 in
          if (diffHours <? 24)%Z then JS.show_int diffHours +:+ "h ago"
          else "Over 24h ago"
    end.

End MerchBoothTracker.

(** ** The application shell (src/App.tsx) *)

Module App.

Record State := mkState {
  user : option User.t;
  currentRoom : option Room.t;
  userLocations : list UserLocation.t;
  myLocation : option Point.t
}.

(** A realtime message, by its [type]: ['location-update'] carries a
    location row, ['user-left'] a user id; any other type is ignored. *)
Inductive Message :=
| LocationUpdate (data : UserLocation.t)
| UserLeft (userId : string)
| OtherMessage (type : string).

(** The state updates of the subscription handler (lines 67-78). *)
Definition on_message (message : Message) (prev : list UserLocation.t)
  : list UserLocation.t :=
  match message with
  | LocationUpdate locationData =>
      let filtered :=
        filter (fun loc => UserLocation.user_id loc
                           ≠ UserLocation.user_id locationData) prev in
      filtered ++ [locationData]
  | UserLeft userId =>
      filter (fun loc => UserLocation.user_id loc ≠ userId) prev
  | OtherMessage _ => prev
  end.

(** The handler is subscribed only while a room is joined. *)
Definition receive (st : State) (message : Message) : State :=
  match currentRoom st with
  | Some _ =>
      {| user := user st; currentRoom := currentRoom st;
         userLocations := on_message message (userLocations st);
         myLocation := myLocation st |}
  | None => st
  end.

(** [user.displayName || user.email]. *)
Definition display_name (u : User.t) : string :=
  match User.displayName u with
  | Some n => if JS.truthy n then n else User.email u
  | None => User.email u
  end.

(** The row built by [handleLocationUpdate] (lines 86-96). *)
Definition locationData (u : User.t) (room : Room.t) (x y : Q)
    (sectionName : option string) : UserLocation.t :=
  {| UserLocation.id := User.id u +:+ "-" +:+ Room.id room;
     UserLocation.room_id := Room.id room;
     UserLocation.user_id := User.id u;
     UserLocation.user_name := display_name u;
     UserLocation.user_avatar := None;
     UserLocation.x_position := x;
     UserLocation.y_position := y;
     UserLocation.section_name := sectionName;
     UserLocation.seat_info := None |}.

(** Whether the two backend calls of [handleLocationUpdate] succeed. *)
Record Env := mkEnv { upsert_ok : bool; publish_ok : bool }.

(** [handleLocationUpdate] (lines 83-120): the store, the state and the
    messages published, each with its channel.  The toasts are left out. *)
Definition handleLocationUpdate (env : Env) (db : Db.t) (st : State)
    (x y : Q) (sectionName : option string)
  : Db.t * State * list (string * Message) :=
  match user st, currentRoom st with
  | Some u, Some room =>
      let data := locationData u room x y sectionName in
      if upsert_ok env
      then
        let db' := Db.upsert_user_location db data in
        let st' := {| user := user st; currentRoom := currentRoom st;
                      userLocations := userLocations st;
                      myLocation := Some (Point.mk x y) |} in
        if publish_ok env
        then (db', st', [("room-" +:+ Room.id room, LocationUpdate data)])
        else (db', st', [])
      else (db, st, [])
  | _, _ => (db, st, [])
  end.

(** [loadRoomLocations] (lines 122-138), when the listing succeeds. *)
Definition loadRoomLocations (db : Db.t) (st : State) (roomId : string)
  : State :=
  let locations := Db.list_user_locations db roomId in
  let myLoc :=
    JS.find (fun loc =>
               match user st with
               | Some u => bool_decide (UserLocation.user_id loc = User.id u)
               | None => false
               end) locations in
  {| user := user st; currentRoom := currentRoom st;
     userLocations := locations;
     myLocation :=
       match myLoc with
       | Some l => Some (Point.mk (UserLocation.x_position l)
                                  (UserLocation.y_position l))
       | None => myLocation st
       end |}.

(** [onLocationSelect={handleLocationUpdate}]: a chart click, when it
    selects, is passed on to [handleLocationUpdate]. *)
Definition chart_click (env : Env) (db : Db.t) (st : State)
    (venueData : VenueData.t) (svgRef : option SeatingChart.DOMRect)
    (view : SeatingChart.State) (e : SeatingChart.MouseEvent)
  : Db.t * State * list (string * Message) :=
  match SeatingChart.handleChartClick venueData svgRef view e with
  | Some sel =>
      handleLocationUpdate env db st (SeatingChart.sel_x sel)
        (SeatingChart.sel_y sel) (SeatingChart.sel_sectionName sel)
  | None => (db, st, [])
  end.

(** The [onRoomChange] handler passed to the room manager (lines 216-224),
    the listing succeeding. *)
Definition onRoomChange (db : Db.t) (st : State) (room : option Room.t)
  : State :=
  let st1 := {| user := user st; currentRoom := room;
                userLocations := userLocations st;
                myLocation := myLocation st |} in
  match room with
  | Some r => loadRoomLocations db st1 (Room.id r)
  | None =>
      {| user := user st1; currentRoom := currentRoom st1;
         userLocations := []; myLocation := None |}
  end.

End App.

(** ** The friends list (src/components/FriendsList.tsx) *)

Module FriendsList.

Definition friends (userLocations : list UserLocation.t)
    (currentUserId : string) : list UserLocation.t :=
  filter (fun loc => UserLocation.user_id loc ≠ currentUserId) userLocations.

Definition myLocation (userLocations : list UserLocation.t)
    (currentUserId : string) : option UserLocation.t :=
  JS.find (fun loc => bool_decide (UserLocation.user_id loc = currentUserId))
          userLocations.

(** [getInitials] (lines 27-34). *)
Definition getInitials (name : string) : string :=
  JS.slice_to 2
    (JS.toUpperCase (JS.join_chars (map JS.first_char (JS.split " " name)))).

Definition coordinates_text (location : UserLocation.t) : string :=
  "(" +:+ JS.show_int (JS.Math_round (UserLocation.x_position location))
      +:+ ", "
      +:+ JS.show_int (JS.Math_round (UserLocation.y_position location))
      +:+ ")".

(** [getLocationText] (lines 36-41). *)
Definition getLocationText (location : UserLocation.t) : string :=
  match UserLocation.section_name location with
  | Some name => if JS.truthy name then name else coordinates_text location
  | None => coordinates_text location
  end.

(** The rows the list renders: the viewer's own, then the friends'. *)
Definition rows (userLocations : list UserLocation.t)
    (currentUserId : string) : list UserLocation.t :=
  match myLocation userLocations currentUserId with
  | Some mine => mine :: friends userLocations currentUserId
  | None => friends userLocations currentUserId
  end.

End FriendsList.

(** ** The venue selector (src/components/VenueSelector.tsx) *)

Module VenueSelector.

(** [handleVenueChange] (lines 40-50): the call of [onVenueSelect], if
    one is made; its argument [None] is [null]. *)
Definition handleVenueChange (venues : list Venue.t) (venueId : string)
  : option (option Venue.t) :=
  if String.eqb venueId "none" then Some None
  else
    match JS.find (fun v => String.eqb (Venue.id v) venueId) venues with
    | Some venue => Some (Some venue)
    | None => None
    end.

(** The [value] of the select (line 68): [selectedVenue?.id || 'none']. *)
Definition select_value (selectedVenue : option Venue.t) : string :=
  match selectedVenue with
  | Some v => if JS.truthy (Venue.id v) then Venue.id v else "none"
  | None => "none"
  end.

End VenueSelector.

(** ** The room manager: leaving a room *)

Module RoomManager.

(** Whether the two backend calls of [leaveRoom] succeed. *)
Record Env := mkEnv { publish_ok : bool; delete_ok : bool }.

(** [leaveRoom]: the store, the messages published with their channel,
    and the call of [onRoomChange], if one is made.  The toast is left
    out. *)
Definition leaveRoom (env : Env) (db : Db.t) (user : User.t)
    (currentRoom : option Room.t)
  : Db.t * list (string * App.Message) * option (option Room.t) :=
  match currentRoom with
  | None => (db, [], None)
  | Some room =>
      if publish_ok env
      then
        let sent := [("room-" +:+ Room.id room, App.UserLeft (User.id user))] in
        if delete_ok env
        then (Db.delete_user_location db
                (User.id user +:+ "-" +:+ Room.id room),
              sent, Some None)
        else (db, sent, None)
      else (db, [], None)
  end.

End RoomManager.

(** * Vocabulary of the properties *)

(** ** Seating chart *)

Definition zoom_in_range (st : SeatingChart.State) : Prop :=
  (1 # 2 <= SeatingChart.zoom st)%Q /\ (SeatingChart.zoom st <= 3)%Q.

(** Equality of points, coordinate by coordinate, as rationals. *)
Definition point_eq (p q : Point.t) : Prop :=
  (Point.x p == Point.x q)%Q /\ (Point.y p == Point.y q)%Q.

(** A left-button event at a point of the page. *)
Definition mouse_at (p : Point.t) : SeatingChart.MouseEvent :=
  SeatingChart.mkMouse 0 (Point.x p) (Point.y p).

(** The numbers [section_hit] reads from a path. *)
Definition path_numbers (section : VenueSection.t) : list Q :=
  map JS.Number (JS.digit_runs None (VenueSection.path section)).

Definition path_has_MLZ (section : VenueSection.t) : Prop :=
  JS.includes (VenueSection.path section) "M" = true
  /\ JS.includes (VenueSection.path section) "L" = true
  /\ JS.includes (VenueSection.path section) "Z" = true.

(** The point lies in the bounding box of the four pairs that start [ns]. *)
Definition in_box_of (ns : list Q) (x y : Q) : Prop :=
  exists x1 y1 x2 y2 x3 y3 x4 y4 rest,
    ns = x1 :: y1 :: x2 :: y2 :: x3 :: y3 :: x4 :: y4 :: rest
    /\ (JS.Math_min4 x1 x2 x3 x4 <= x)%Q /\ (x <= JS.Math_max4 x1 x2 x3 x4)%Q
    /\ (JS.Math_min4 y1 y2 y3 y4 <= y)%Q /\ (y <= JS.Math_max4 y1 y2 y3 y4)%Q.

(** The hit test as the specification words it: the numeric literals of
    the path, the first four pairs, the inclusive bounding box. *)
Definition spec_section_hit (x y : Q) (section : VenueSection.t) : bool :=
  match path_numbers section with
  | x1 :: y1 :: x2 :: y2 :: x3 :: y3 :: x4 :: y4 :: _ =>
      JS.le (JS.Math_min4 x1 x2 x3 x4) x
      && JS.le x (JS.Math_max4 x1 x2 x3 x4)
      && JS.le (JS.Math_min4 y1 y2 y3 y4) y
      && JS.le y (JS.Math_max4 y1 y2 y3 y4)
  | _ => false
  end.

Definition floor_section : VenueSection.t :=
  VenueSection.mk "floor" "Floor" "#8B5CF6"
    "M100 100 L400 100 L400 400 L100 400 Z".

Definition quad_section : VenueSection.t :=
  VenueSection.mk "quad" "Quad" "#10B981" "M0 0 L100 0 L100 100 L0 100 Z".

(** The same four corners in a path that is not closed by [Z]. *)
Definition open_quad_section : VenueSection.t :=
  VenueSection.mk "quad" "Quad" "#10B981" "M0 0 L100 0 L100 100 L0 100".

(** A [JSON.parse] that throws on one truncated layout string. *)
Definition throws_on_truncated_layout (s : string) : option VenueData.t :=
  if String.eqb s "{sections: [" then None
  else Some (VenueData.mk [floor_section]).

(** The view after the chart has been dragged by (60, 40) at zoom 1. *)
Definition panned_view : SeatingChart.State :=
  SeatingChart.mkState 1 (Point.mk 60 40) false (Point.mk 200 200).

(** A box of the size of the view box, at the corner of the page: one
    chart unit is one CSS pixel. *)
Definition natural_box : SeatingChart.LayoutBox :=
  SeatingChart.mkBox 0 0 500 500.

(** ** Booth lines *)

Definition sum_Z (zs : list Z) : Z := foldr Z.add 0 zs.

(** The mean of a list of integers, as a rational. *)
Definition mean (zs : list Z) : Q :=
  (inject_Z (sum_Z zs) / inject_Z (Z.of_nat (length zs)))%Q.

(** [n] is [m] rounded to the nearest integer, halves going up. *)
Definition rounds_to (m : Q) (n : Z) : Prop :=
  (inject_Z n - (1 # 2) <= m)%Q /\ (m < inject_Z n + (1 # 2))%Q.

Definition line_lengths (rs : list LineReport.t) : list Z :=
  map LineReport.line_length rs.

(** The wait times of the reports that carry one. *)
Definition wait_times (rs : list LineReport.t) : list Z :=
  omap LineReport.wait_time_minutes rs.

Definition reports_of_booth (db : Db.t) (boothId : string) : list LineReport.t :=
  filter (fun r => LineReport.booth_id r = boothId) (Db.line_reports db).

(** The four levels and the select values that stand for them. *)
Definition line_length_levels : list (Z * string) :=
  combine [0; 1; 2; 3] MerchBoothTracker.line_length_values.

(** ** Locations *)

Definition user_ids (ls : list UserLocation.t) : list string :=
  map UserLocation.user_id ls.

(** The entries of a user in the list. *)
Definition entries_of (userId : string) (ls : list UserLocation.t)
  : list UserLocation.t :=
  filter (fun loc => UserLocation.user_id loc = userId) ls.

(** Every stored row sits under its own id, which is its user id, a dash
    and its room id: what [handleLocationUpdate] writes. *)
Definition keyed_by_user_and_room (m : gmap string UserLocation.t) : Prop :=
  forall k row,
    m !! k = Some row ->
    k = UserLocation.id row
    /\ UserLocation.id row
       = UserLocation.user_id row +:+ "-" +:+ UserLocation.room_id row.

(** ** Sample data *)

Definition with_line_length (n : Z) : LineReport.t :=
  LineReport.mk "r" "b1" "u1" n None "2024-06-01T20:00:00.000Z".

Definition sample_booth : MerchBooth.t :=
  MerchBooth.mk "b1" "v1" "Main merch" 120 80 "By gate A" "2024-06-01".

Definition sample_report (id : string) (boothId : string) (n : Z)
    (w : option Z) (at_ : string) : LineReport.t :=
  LineReport.mk id boothId "u1" n w at_.

Definition sample_db : Db.t :=
  Db.mk [sample_booth]
    [sample_report "r1" "b1" 0 None "2024-06-01T20:00:00.000Z";
     sample_report "r2" "b1" 0 (Some 5) "2024-06-01T20:05:00.000Z";
     sample_report "r3" "b2" 3 (Some 30) "2024-06-01T20:06:00.000Z";
     sample_report "r4" "b1" 1 None "2024-06-01T20:10:00.000Z";
     sample_report "r5" "b1" 2 (Some 10) "2024-06-01T20:15:00.000Z";
     sample_report "r6" "b1" 3 (Some 20) "2024-06-01T20:20:00.000Z";
     sample_report "r7" "b1" 3 None "2024-06-01T20:25:00.000Z";
     sample_report "r8" "b1" 3 (Some 30) "2024-06-01T20:30:00.000Z"]
    ∅.

Definition sample_user : User.t := User.mk "u1" "u1@example.org" None.

Definition sample_env : MerchBoothTracker.Env :=
  MerchBoothTracker.mkEnv "2024-06-01T20:35:00.000Z" "1717274100000"
    "k3j9x2m1q" true true.

(** The form with booth b1, line length Medium and the given wait time. *)
Definition sample_form (waitTime : string) : MerchBoothTracker.State :=
  MerchBoothTracker.mkState [] false "b1" "2" waitTime false (Some sample_user).

Definition sample_room : Room.t := Room.mk "R1" "Friends" "v1" "u1".

Definition sample_app : App.State :=
  App.mkState (Some sample_user) (Some sample_room) [] None.

(** ** Further vocabulary *)

(** An event that neither starts a drag nor resets the view. *)
Definition keeps_pan (ev : SeatingChart.Event) : Prop :=
  match ev with
  | SeatingChart.MouseDown e => SeatingChart.button e <> 0
  | SeatingChart.ResetButton => False
  | _ => True
  end.

(** The characters of a string, in order. *)
Definition chars (s : string) : list ascii := list_ascii_of_string s.

Definition space : ascii := " "%char.

(** A message that adds or removes the entry of the given user. *)
Definition about_user (userId : string) (m : App.Message) : Prop :=
  match m with
  | App.LocationUpdate data => UserLocation.user_id data = userId
  | App.UserLeft leaver => leaver = userId
  | App.OtherMessage _ => False
  end.

(** * Properties *)

(** ** Built-ins on the values the components use *)

Example parseInt_examples :
  JS.parseInt "0" = Some 0 /\ JS.parseInt "30" = Some 30 /\
  JS.parseInt " -12px" = Some (-12) /\ JS.parseInt "0x1F" = Some 31 /\
  JS.parseInt "" = None /\ JS.parseInt "abc" = None.
Proof. repeat split; reflexivity. Qed.

Example match_digits_examples :
  JS.match_digits "M0 0 L100 0 L100 100 L0 100 Z"
    = Some ["0"; "0"; "100"; "0"; "100"; "100"; "0"; "100"]%string /\
  JS.match_digits "M10.5,-7" = Some ["10"; "5"; "7"]%string /\
  JS.match_digits "MLZ" = None.
Proof. repeat split; reflexivity. Qed.

Lemma le_true a b : JS.le a b = true <-> (a <= b)%Q.
Proof. apply Qle_bool_iff. Qed.

Lemma lt_true a b : JS.lt a b = true <-> (a < b)%Q.
Proof.
  unfold JS.lt. rewrite negb_true_iff. split.
  - intros H. apply Qnot_le_lt. intros Hle. apply Qle_bool_iff in Hle. congruence.
  - intros H. destruct (Qle_bool b a) eqn:E; [|done].
    apply Qle_bool_iff in E. lra.
Qed.

Lemma lt_false a b : JS.lt a b = false <-> (b <= a)%Q.
Proof.
  unfold JS.lt. rewrite negb_false_iff. apply Qle_bool_iff.
Qed.

(** ** Zoom, pan and the click transform *)

Section ViewState.

Import SeatingChart.

Lemma handleZoomIn_in_range st :
  zoom_in_range st -> zoom_in_range (handleZoomIn st).
Proof.
  unfold zoom_in_range, handleZoomIn; simpl. intros [Hlo Hhi]. split.
  - apply Q.min_glb; lra.
  - apply Q.le_min_r.
Qed.

Lemma handleZoomOut_in_range st :
  zoom_in_range st -> zoom_in_range (handleZoomOut st).
Proof.
  unfold zoom_in_range, handleZoomOut; simpl. intros [Hlo Hhi]. split.
  - apply Q.le_max_r.
  - apply Q.max_lub; [|lra].
    unfold Qdiv. change (/ (12 # 10))%Q with (10 # 12)%Q. lra.
Qed.

Lemma handleReset_in_range st : zoom_in_range (handleReset st).
Proof. unfold zoom_in_range, handleReset; simpl. lra. Qed.

Lemma step_in_range venueData svgRef st ev :
  zoom_in_range st -> zoom_in_range (step venueData svgRef st ev).1.
Proof.
  intros H. destruct ev; simpl;
    auto using handleZoomIn_in_range, handleZoomOut_in_range,
               handleReset_in_range.
  - unfold handleMouseDown. by destruct (button e =? 0)%Z.
  - unfold handleMouseMove. by destruct (isDragging st).
Qed.

Lemma run_cons venueData svgRef st ev evs :
  run venueData svgRef st (ev :: evs)
  = ((run venueData svgRef (step venueData svgRef st ev).1 evs).1,
     (step venueData svgRef st ev).2
       ++ (run venueData svgRef (step venueData svgRef st ev).1 evs).2).
Proof.
  simpl. destruct (step venueData svgRef st ev) as [st1 out1]. simpl.
  by destruct (run venueData svgRef st1 evs).
Qed.

(** C5. Zoom clamp invariant: from a zoom factor in [[0.5, 3]] (the
    initial factor 1 is), every sequence of events of the chart, and so
    every chain of zoom-in ([Math.min(prev * 1.2, 3)]), zoom-out
    ([Math.max(prev / 1.2, 0.5)]) and reset, leaves the zoom factor in
    [[0.5, 3]]; reset sets the zoom to 1 and the pan to (0, 0). *)
Theorem zoom_clamp_invariant venueData svgRef (st : State) (evs : list Event) :
  zoom_in_range st ->
  zoom_in_range (run venueData svgRef st evs).1
  /\ zoom_in_range initial
  /\ zoom initial = 1%Q
  /\ zoom (handleReset st) = 1%Q
  /\ pan (handleReset st) = Point.mk 0 0.
Proof.
  intros H. split; [|repeat split; simpl; lra].
  revert st H. induction evs as [|ev evs IH]; intros st H; [done|].
  rewrite run_cons. simpl. apply IH. by apply step_in_range.
Qed.

Lemma zoom_clamp_invariant_witness :
  zoom_in_range
    (run (VenueData.mk []) None initial
       [ZoomInButton; ZoomInButton; ZoomInButton; ZoomInButton;
        ZoomInButton; ZoomInButton; ZoomInButton; ZoomOutButton;
        ResetButton; ZoomOutButton; ZoomOutButton; ZoomOutButton;
        ZoomOutButton; ZoomOutButton]).1.
Proof.
  apply (zoom_clamp_invariant (VenueData.mk []) None initial).
  unfold zoom_in_range; simpl; lra.
Defined.

(** A chart point is drawn at the origin of the rectangle the handler
    reads, plus the zoom times its place in the box: the pan is already in
    that rectangle. *)
Lemma render_from_rect box st p :
  point_eq (render box st p)
    (Point.mk
       (rect_left (getBoundingClientRect box st)
        + zoom st * Point.x (viewBox_to_box box p))%Q
       (rect_top (getBoundingClientRect box st)
        + zoom st * Point.y (viewBox_to_box box p))%Q).
Proof.
  unfold point_eq, render, getBoundingClientRect, transformed; simpl.
  split; ring.
Qed.

(** A click on the place where a chart point is drawn: the handler
    subtracts the pan once more and returns the place in the box less
    pan / zoom. *)
Lemma click_on_drawn_point box st p :
  ~ (zoom st == 0)%Q ->
  point_eq
    (click_to_logical (getBoundingClientRect box st) st
       (mouse_at (render box st p)))
    (Point.mk
       (Point.x (viewBox_to_box box p) - Point.x (pan st) / zoom st)%Q
       (Point.y (viewBox_to_box box p) - Point.y (pan st) / zoom st)%Q).
Proof.
  intros Hz.
  unfold point_eq, click_to_logical, mouse_at, render, getBoundingClientRect,
    transformed; simpl.
  split; field; exact Hz.
Qed.

(** C4. Coordinate inversion round trip, at a chart dragged by (60, 40):
    in a 500 x 500 box at the corner of the page, at zoom 1, the element is
    shown moved by (60, 40), so the rectangle the handler reads starts at
    (60, 40) and the chart point (200, 200) is drawn at (260, 240).  A
    click there is mapped to (260 - 60 - 60, 240 - 40 - 40) = (140, 160),
    not back to (200, 200): the pan is taken off twice, once in the
    rectangle and once by the handler. *)
Theorem click_on_drawn_point_is_off_by_pan :
  (rect_left (getBoundingClientRect natural_box panned_view) == 60)%Q
  /\ (rect_top (getBoundingClientRect natural_box panned_view) == 40)%Q
  /\ point_eq (render natural_box panned_view (Point.mk 200 200))
       (Point.mk 260 240)
  /\ point_eq
       (click_to_logical (getBoundingClientRect natural_box panned_view)
          panned_view (mouse_at (render natural_box panned_view
                                   (Point.mk 200 200))))
       (Point.mk 140 160)
  /\ ~ point_eq
         (click_to_logical (getBoundingClientRect natural_box panned_view)
            panned_view (mouse_at (render natural_box panned_view
                                     (Point.mk 200 200))))
         (Point.mk 200 200)
  /\ exists sel,
      handleChartClick (VenueData.mk [floor_section])
        (Some (getBoundingClientRect natural_box panned_view)) panned_view
        (mkMouse 0 260 240) = Some sel
      /\ (sel_x sel == 140)%Q /\ (sel_y sel == 160)%Q.
Proof.
  split; [vm_compute; reflexivity|]. split; [vm_compute; reflexivity|].
  split; [split; vm_compute; reflexivity|].
  split; [split; vm_compute; reflexivity|].
  split; [intros [H _]; vm_compute in H; discriminate H|].
  eexists. split; [reflexivity|]. split; vm_compute; reflexivity.
Qed.

(** In every state the zoom buttons can reach, the zoom factor is not 0. *)
Lemma zoom_in_range_nonzero st : zoom_in_range st -> ~ (zoom st == 0)%Q.
Proof. intros [Hlo _] Hz. rewrite Hz in Hlo. by apply Hlo. Qed.

End ViewState.

(** ** Drags and clicks *)

Section DragAndClick.

Import SeatingChart.

(** While [isDragging] is set the click handler returns at once. *)
Lemma dragging_click_ignored venueData svgRef st e :
  isDragging st = true -> handleChartClick venueData svgRef st e = None.
Proof. intros H. unfold handleChartClick. by rewrite H. Qed.

Lemma not_dragging_click_selects venueData rect st e :
  isDragging st = false ->
  exists sel, handleChartClick venueData (Some rect) st e = Some sel.
Proof. intros H. unfold handleChartClick. rewrite H. eauto. Qed.

Lemma run_app venueData svgRef st evs1 evs2 :
  run venueData svgRef st (evs1 ++ evs2)
  = ((run venueData svgRef (run venueData svgRef st evs1).1 evs2).1,
     (run venueData svgRef st evs1).2
       ++ (run venueData svgRef (run venueData svgRef st evs1).1 evs2).2).
Proof.
  revert st. induction evs1 as [|ev evs1 IH]; intros st.
  - simpl. by destruct (run venueData svgRef st evs2).
  - rewrite <- app_comm_cons, !run_cons, IH. simpl. by rewrite app_assoc.
Qed.

Lemma moves_select_nothing venueData svgRef st moves :
  (run venueData svgRef st (map MouseMove moves)).2 = [].
Proof.
  revert st. induction moves as [|m moves IH]; intros st; [done|].
  rewrite map_cons, run_cons. simpl. apply IH.
Qed.

(** A press, any pointer movement, a release and the click that follows:
    the release has cleared [isDragging], so the click selects, once,
    however far the pointer moved and whatever the state before. *)
Lemma press_move_release_click_selects_once venueData rect st down moves e :
  length (run venueData (Some rect) st
            (MouseDown down :: map MouseMove moves ++ [MouseUp; Click e])).2
  = 1%nat.
Proof.
  rewrite run_cons, run_app, moves_select_nothing.
  set (st1 := (run venueData (Some rect)
                 (step venueData (Some rect) st (MouseDown down)).1
                 (map MouseMove moves)).1).
  destruct (not_dragging_click_selects venueData rect (handleMouseUp st1) e)
    as [sel Hsel]; [done|].
  rewrite !run_cons. cbn [step fst snd run]. by rewrite Hsel.
Qed.

(** C6. Drag suppresses click, at a pan drag followed by its click: the
    pointer is pressed at (200, 200), dragged to (260, 240) and released
    there, and the click of that gesture is delivered.  The handlers pan
    the chart by (60, 40) and then call [onLocationSelect] once, with
    chart point (200, 200) in section Floor: the click that follows the
    drag is not suppressed. *)
Theorem click_after_pan_drag_selects :
  run (VenueData.mk [floor_section]) (Some (mkRect 0 0)) initial
    [MouseDown (mkMouse 0 200 200); MouseMove (mkMouse 0 260 240);
     MouseUp; Click (mkMouse 0 260 240)]
  = (mkState 1 (Point.mk 60 40) false (Point.mk 200 200),
     [mkSelection 200 200 (Some "Floor")]).
Proof. vm_compute. reflexivity. Qed.

End DragAndClick.

(** ** The section hit test *)

Section HitTest.

Import SeatingChart.

Lemma find_Some_first {A} (p : A -> bool) xs x :
  JS.find p xs = Some x ->
  exists before after,
    xs = before ++ x :: after
    /\ Forall (fun y => p y = false) before
    /\ p x = true.
Proof.
  induction xs as [|a xs IH]; simpl; [done|].
  destruct (p a) eqn:Ea.
  - intros [= <-]. exists [], xs. by repeat split.
  - intros H. destruct (IH H) as (before & after & -> & Hb & Hx).
    exists (a :: before), after. repeat split; auto.
Qed.

Lemma find_None_all {A} (p : A -> bool) xs :
  JS.find p xs = None -> Forall (fun y => p y = false) xs.
Proof.
  induction xs as [|a xs IH]; simpl; [constructor|].
  destruct (p a) eqn:Ea; [done|]. intros H. constructor; auto.
Qed.

(** [Math_min4] and [Math_max4] are the least and the greatest of their
    arguments. *)
Lemma Math_min4_le m a b c d :
  (m <= JS.Math_min4 a b c d)%Q
  <-> (m <= a)%Q /\ (m <= b)%Q /\ (m <= c)%Q /\ (m <= d)%Q.
Proof. unfold JS.Math_min4. rewrite !Q.min_glb_iff. tauto. Qed.

Lemma Math_max4_le m a b c d :
  (JS.Math_max4 a b c d <= m)%Q
  <-> (a <= m)%Q /\ (b <= m)%Q /\ (c <= m)%Q /\ (d <= m)%Q.
Proof. unfold JS.Math_max4. rewrite !Q.max_lub_iff. tauto. Qed.

Lemma match_digits_numbers pathData :
  map JS.Number <$> JS.match_digits pathData
  = match JS.digit_runs None pathData with
    | [] => None
    | ms => Some (map JS.Number ms)
    end.
Proof. unfold JS.match_digits. by destruct (JS.digit_runs None pathData). Qed.

Lemma section_hit_iff x y section :
  section_hit x y section = true
  <-> path_has_MLZ section /\ in_box_of (path_numbers section) x y.
Proof.
  unfold section_hit, path_has_MLZ, in_box_of, path_numbers.
  rewrite match_digits_numbers.
  destruct (JS.includes (VenueSection.path section) "M");
    [|split; [done|intros [(? & _) _]; done]].
  destruct (JS.includes (VenueSection.path section) "L");
    [|split; [done|intros [(_ & ? & _) _]; done]].
  destruct (JS.includes (VenueSection.path section) "Z");
    [|split; [done|intros [(_ & _ & ?) _]; done]].
  simpl andb. cbn match.
  destruct (JS.digit_runs None (VenueSection.path section))
    as [|n1 [|n2 [|n3 [|n4 [|n5 [|n6 [|n7 [|n8 rest]]]]]]]]; simpl;
    try (split; [done|intros [_ (?&?&?&?&?&?&?&?&?&?&_)]; done]).
  rewrite !andb_true_iff, !le_true. split.
  - intros (((H1 & H2) & H3) & H4). split; [done|].
    by eexists _, _, _, _, _, _, _, _, _.
  - intros [_ (?&?&?&?&?&?&?&?&?&Heq&H1&H2&H3&H4)].
    by injection Heq as <- <- <- <- <- <- <- <- _.
Qed.

Lemma section_hit_short x y section :
  (length (JS.digit_runs None (VenueSection.path section)) < 8)%nat ->
  section_hit x y section = false.
Proof.
  intros Hlen. destruct (section_hit x y section) eqn:E; [|done].
  apply section_hit_iff in E as [_ (?&?&?&?&?&?&?&?&?&Heq&_)].
  unfold path_numbers in Heq.
  apply (f_equal length) in Heq. rewrite length_map in Heq.
  simpl in Heq. lia.
Qed.

(** C1, as stated, fails: the path below has the eight numbers of the quad
    (0,0), (100,0), (100,100), (0,100), and the chart point (50, 50) lies
    in their bounding box, yet the click reports no section, because the
    path has no [Z]. *)
Lemma hit_test_ignores_path_without_Z :
  JS.digit_runs None (VenueSection.path open_quad_section)
    = ["0"; "0"; "100"; "0"; "100"; "100"; "0"; "100"]%string
  /\ spec_section_hit 50 50 open_quad_section = true
  /\ handleChartClick (VenueData.mk [open_quad_section])
       (Some (mkRect 0 0)) initial (mkMouse 0 50 50)
     = Some (mkSelection 50 50 None).
Proof. repeat split; vm_compute; reflexivity. Qed.

(** C1 (amended). Section hit test: a click while no drag is in progress,
    on the mounted chart, always calls [onLocationSelect] with the click's
    chart coordinates; the section name is that of the first section in
    list order that is hit, and none when no section is hit.  A section
    is hit iff its path contains the letters M, L and Z and the point lies
    in the bounding box, bounds included, of the first four (x, y) pairs
    of the path's numbers (its maximal runs of digits).  A path with
    fewer than 8 numbers is never hit.  For the quad (0,0), (100,0),
    (100,100), (0,100), (50, 50) is a hit and (150, 150) is not. *)
Theorem section_hit_test venueData rect (st : State) (e : MouseEvent) :
  isDragging st = false ->
  let p := click_to_logical rect st e in
  (exists name,
      handleChartClick venueData (Some rect) st e
      = Some (mkSelection (Point.x p) (Point.y p) name)
      /\ ((name = None
           /\ Forall (fun s => section_hit (Point.x p) (Point.y p) s = false)
                (VenueData.sections venueData))
          \/ (exists before s after,
                 VenueData.sections venueData = before ++ s :: after
                 /\ Forall
                      (fun s' => section_hit (Point.x p) (Point.y p) s' = false)
                      before
                 /\ section_hit (Point.x p) (Point.y p) s = true
                 /\ name = Some (VenueSection.name s))))
  /\ (forall x y s,
         section_hit x y s = true
         <-> path_has_MLZ s /\ in_box_of (path_numbers s) x y)
  /\ (forall x y s,
         (length (JS.digit_runs None (VenueSection.path s)) < 8)%nat ->
         section_hit x y s = false)
  /\ section_hit 50 50 quad_section = true
  /\ section_hit 150 150 quad_section = false.
Proof.
  intros Hdrag p. split; [|split; [|split; [|split]]].
  - unfold handleChartClick. rewrite Hdrag. fold p.
    destruct (JS.find (section_hit (Point.x p) (Point.y p))
                (VenueData.sections venueData)) as [s|] eqn:Hfind.
    + exists (Some (VenueSection.name s)). split; [done|]. right.
      destruct (find_Some_first _ _ _ Hfind) as (before & after & ? & ? & ?).
      by exists before, s, after.
    + exists None. split; [done|]. left. split; [done|].
      by apply find_None_all.
  - apply section_hit_iff.
  - apply section_hit_short.
  - reflexivity.
  - reflexivity.
Qed.

Lemma section_hit_test_witness :
  exists name,
    handleChartClick (VenueData.mk [open_quad_section; floor_section; quad_section])
      (Some (mkRect 10 20))
      (mkState 2 (Point.mk 30 40) false (Point.mk 0 0))
      (mkMouse 0 340 360)
    = Some (mkSelection (Point.x (click_to_logical (mkRect 10 20)
                                    (mkState 2 (Point.mk 30 40) false (Point.mk 0 0))
                                    (mkMouse 0 340 360)))
                        (Point.y (click_to_logical (mkRect 10 20)
                                    (mkState 2 (Point.mk 30 40) false (Point.mk 0 0))
                                    (mkMouse 0 340 360)))
                        name).
Proof.
  destruct (section_hit_test
              (VenueData.mk [open_quad_section; floor_section; quad_section])
              (mkRect 10 20)
              (mkState 2 (Point.mk 30 40) false (Point.mk 0 0))
              (mkMouse 0 340 360) eq_refl) as [[name [H _]] _].
  exists name. exact H.
Defined.

End HitTest.

(** ** A layout that does not parse *)

Section ParseFailure.

Import SeatingChart.

Variable JSON_parse : string -> option VenueData.t.

Lemma handleLocationUpdate_stores env db st u room x y sectionName :
  App.user st = Some u ->
  App.currentRoom st = Some room ->
  App.upsert_ok env = true ->
  Db.user_locations (App.handleLocationUpdate env db st x y sectionName).1.1
    !! (User.id u +:+ "-" +:+ Room.id room)
  = Some (App.locationData u room x y sectionName).
Proof.
  intros Hu Hr Hok. unfold App.handleLocationUpdate.
  rewrite Hu, Hr, Hok.
  destruct (App.publish_ok env); simpl; apply lookup_insert_eq.
Qed.

(** C9. Layout parse failure: when [JSON.parse] throws on the venue's
    stored layout, the section list is empty and the chart still works: a
    click outside a drag calls [onLocationSelect] with the click's chart
    coordinates and no section name, and the call is handed to
    [handleLocationUpdate]; with a user signed in, a room joined and the
    store answering, the row written carries those coordinates and no
    section name. *)
Theorem parse_failure_degrades (venue : Venue.t) rect (view : State)
    (e : MouseEvent) env db (st : App.State) :
  JSON_parse (Venue.seating_chart_data venue) = None ->
  isDragging view = false ->
  let p := click_to_logical rect view e in
  VenueData.sections (venueData JSON_parse venue) = []
  /\ handleChartClick (venueData JSON_parse venue) (Some rect) view e
     = Some (mkSelection (Point.x p) (Point.y p) None)
  /\ App.chart_click env db st (venueData JSON_parse venue) (Some rect) view e
     = App.handleLocationUpdate env db st (Point.x p) (Point.y p) None
  /\ forall u room,
      App.user st = Some u ->
      App.currentRoom st = Some room ->
      App.upsert_ok env = true ->
      exists row,
        Db.user_locations
          (App.chart_click env db st (venueData JSON_parse venue)
             (Some rect) view e).1.1
          !! (User.id u +:+ "-" +:+ Room.id room) = Some row
        /\ UserLocation.x_position row = Point.x p
        /\ UserLocation.y_position row = Point.y p
        /\ UserLocation.section_name row = None.
Proof.
  intros Hparse Hdrag p.
  assert (Hsec : VenueData.sections (venueData JSON_parse venue) = []).
  { unfold venueData. by rewrite Hparse. }
  assert (Hclick : handleChartClick (venueData JSON_parse venue)
                     (Some rect) view e
                   = Some (mkSelection (Point.x p) (Point.y p) None)).
  { unfold handleChartClick. by rewrite Hdrag, Hsec. }
  assert (Hfwd : App.chart_click env db st (venueData JSON_parse venue)
                   (Some rect) view e
                 = App.handleLocationUpdate env db st
                     (Point.x p) (Point.y p) None).
  { unfold App.chart_click. by rewrite Hclick. }
  repeat split; try done.
  intros u room Hu Hr Hok.
  exists (App.locationData u room (Point.x p) (Point.y p) None).
  rewrite Hfwd. split; [|done].
  by apply handleLocationUpdate_stores.
Qed.

End ParseFailure.

Lemma parse_failure_degrades_witness :
  SeatingChart.handleChartClick
    (SeatingChart.venueData throws_on_truncated_layout
       (Venue.mk "v1" "Arena" "Main hall" "{sections: ["))
    (Some (SeatingChart.mkRect 0 0)) SeatingChart.initial
    (SeatingChart.mkMouse 0 120 80)
  = Some (SeatingChart.mkSelection
            (Point.x (SeatingChart.click_to_logical (SeatingChart.mkRect 0 0)
                        SeatingChart.initial (SeatingChart.mkMouse 0 120 80)))
            (Point.y (SeatingChart.click_to_logical (SeatingChart.mkRect 0 0)
                        SeatingChart.initial (SeatingChart.mkMouse 0 120 80)))
            None).
Proof.
  apply (parse_failure_degrades throws_on_truncated_layout
           (Venue.mk "v1" "Arena" "Main hall" "{sections: [")
           (SeatingChart.mkRect 0 0) SeatingChart.initial
           (SeatingChart.mkMouse 0 120 80)
           (App.mkEnv true true)
           (Db.mk [] [] ∅)
           (App.mkState (Some (User.mk "u1" "u1@example.org" None))
              (Some (Room.mk "R1" "Friends" "v1" "u1")) [] None));
    reflexivity.
Defined.

(** ** Listings: order and limit *)

Section Sorting.

Context {A : Type} (le : A -> A -> bool).

Lemma insert_by_Permutation x l : Permutation (Db.insert_by le x l) (x :: l).
Proof.
  induction l as [|y l IH]; simpl; [done|].
  destruct (le x y); [done|].
  rewrite IH. apply perm_swap.
Qed.

Lemma sort_by_Permutation l : Permutation (Db.sort_by le l) l.
Proof.
  induction l as [|x l IH]; simpl; [done|].
  rewrite insert_by_Permutation. by constructor.
Qed.

Hypothesis le_total : forall a b, le a b = true \/ le b a = true.
Hypothesis le_trans :
  forall a b c, le a b = true -> le b c = true -> le a c = true.

Lemma insert_by_sorted x l :
  StronglySorted (fun a b => le a b = true) l ->
  StronglySorted (fun a b => le a b = true) (Db.insert_by le x l).
Proof.
  induction 1 as [|y l Hs IH Hy]; simpl; [repeat constructor|].
  destruct (le x y) eqn:Exy.
  - constructor; [by constructor|].
    constructor; [done|].
    eapply Forall_impl; [exact Hy|]. intros z Hz. by eapply le_trans.
  - constructor; [done|].
    rewrite insert_by_Permutation. constructor; [|done].
    destruct (le_total x y); congruence.
Qed.

Lemma sort_by_sorted l :
  StronglySorted (fun a b => le a b = true) (Db.sort_by le l).
Proof.
  induction l as [|x l IH]; simpl; [constructor|].
  by apply insert_by_sorted.
Qed.

(** The first element of a sorted listing is [le]-below every element
    listed, whatever the limit. *)
Lemma sorted_head_least l limit first rest x :
  take limit (Db.sort_by le l) = first :: rest ->
  In x l -> le first x = true.
Proof.
  intros Htake Hx.
  pose proof (sort_by_sorted l) as Hs.
  assert (Hx' : In x (Db.sort_by le l)).
  { eapply Permutation_in; [symmetry; apply sort_by_Permutation|done]. }
  destruct (Db.sort_by le l) as [|y l']; [by destruct limit|].
  destruct limit as [|limit]; [done|].
  simpl in Htake. injection Htake as -> _.
  apply StronglySorted_inv in Hs as [_ Hall].
  destruct Hx' as [->|Hin].
  - destruct (le_total x x); done.
  - rewrite Forall_forall in Hall. by apply Hall, list_elem_of_In.
Qed.

End Sorting.

Lemma string_le_iff a b :
  Db.string_le a b = true <-> a = b \/ OrdersEx.String_as_OT.lt a b.
Proof.
  unfold Db.string_le.
  destruct (OrdersEx.String_as_OT.compare_spec a b) as [Heq|Hlt|Hgt].
  - by split; [left|].
  - by split; [right|].
  - split; [done|]. intros [->|Hlt]; exfalso.
    + by apply (StrictOrder_Irreflexive b).
    + apply (StrictOrder_Irreflexive a). by etransitivity.
Qed.

Lemma string_le_total a b :
  Db.string_le a b = true \/ Db.string_le b a = true.
Proof.
  rewrite !string_le_iff.
  destruct (OrdersEx.String_as_OT.compare_spec a b); auto.
Qed.

Lemma string_le_trans a b c :
  Db.string_le a b = true -> Db.string_le b c = true -> Db.string_le a c = true.
Proof.
  rewrite !string_le_iff. intros [->|Hab] [->|Hbc]; auto.
  right. by etransitivity.
Qed.

Lemma newer_first_total a b :
  Db.newer_first a b = true \/ Db.newer_first b a = true.
Proof. unfold Db.newer_first. apply string_le_total. Qed.

Lemma newer_first_trans a b c :
  Db.newer_first a b = true -> Db.newer_first b c = true ->
  Db.newer_first a c = true.
Proof. unfold Db.newer_first. eauto using string_le_trans. Qed.

Lemma list_line_reports_length db boothId limit :
  length (Db.list_line_reports db boothId limit)
  = Nat.min limit
      (length (filter (fun r => LineReport.booth_id r = boothId)
                 (Db.line_reports db))).
Proof.
  unfold Db.list_line_reports.
  rewrite length_take.
  by rewrite (Permutation_length (sort_by_Permutation _ _)).
Qed.

Lemma list_line_reports_In db boothId limit r :
  In r (Db.list_line_reports db boothId limit) ->
  In r (Db.line_reports db) /\ LineReport.booth_id r = boothId.
Proof.
  unfold Db.list_line_reports. intros Hin.
  assert (Hin' : r ∈ filter (fun r => LineReport.booth_id r = boothId)
                       (Db.line_reports db)).
  { apply list_elem_of_In.
    eapply Permutation_in; [apply sort_by_Permutation|].
    apply list_elem_of_In.
    eapply elem_of_sublist; [apply list_elem_of_In, Hin|apply sublist_take]. }
  apply list_elem_of_filter in Hin' as [Hb Hin'].
  split; [by apply list_elem_of_In|done].
Qed.

Lemma list_line_reports_newest db boothId limit first rest r :
  Db.list_line_reports db boothId limit = first :: rest ->
  In r (Db.line_reports db) ->
  LineReport.booth_id r = boothId ->
  Db.string_le (LineReport.reported_at r) (LineReport.reported_at first) = true.
Proof.
  intros Hlist Hin Hb.
  change (Db.newer_first first r = true).
  eapply (sorted_head_least Db.newer_first newer_first_total newer_first_trans);
    [exact Hlist|].
  apply list_elem_of_In, list_elem_of_filter. split; [done|].
  by apply list_elem_of_In.
Qed.

(** ** Per-booth aggregation *)

Section Aggregation.

Import MerchBoothTracker.

Lemma Math_round_rounds m : rounds_to m (JS.Math_round m).
Proof.
  unfold rounds_to, JS.Math_round.
  pose proof (Qfloor_le (m + (1 # 2))) as Hlo.
  pose proof (Qlt_floor (m + (1 # 2))) as Hhi.
  rewrite inject_Z_plus in Hhi. change (inject_Z 1) with 1%Q in Hhi.
  generalize dependent (inject_Z (Qfloor (m + (1 # 2)))). intros k Hlo Hhi.
  split; lra.
Qed.

Lemma rounds_to_unique m n1 n2 : rounds_to m n1 -> rounds_to m n2 -> n1 = n2.
Proof.
  unfold rounds_to. intros [Hlo1 Hhi1] [Hlo2 Hhi2].
  assert (H12 : (inject_Z n1 < inject_Z n2 + 1)%Q) by lra.
  assert (H21 : (inject_Z n2 < inject_Z n1 + 1)%Q) by lra.
  change 1%Q with (inject_Z 1) in H12, H21.
  rewrite <- inject_Z_plus in H12, H21.
  rewrite <- Zlt_Qlt in H12, H21. lia.
Qed.

Lemma fold_left_sum {A} (f : A -> Z) rs a :
  fold_left (fun sum r => sum + f r) rs a = a + sum_Z (map f rs).
Proof.
  revert a. induction rs as [|r rs IH]; intros a; simpl; [lia|].
  rewrite IH. lia.
Qed.

Lemma sum_line_length_spec rs : sum_line_length rs = sum_Z (line_lengths rs).
Proof. unfold sum_line_length. by rewrite fold_left_sum. Qed.

Lemma filter_has_wait_time rs :
  map wait_or_zero (List.filter has_wait_time rs) = wait_times rs.
Proof.
  unfold wait_times. induction rs as [|r rs IH]; [done|].
  cbn [List.filter]. unfold has_wait_time at 1.
  destruct (LineReport.wait_time_minutes r) as [w|] eqn:E.
  - cbn [map]. rewrite IH. unfold wait_or_zero. rewrite E.
    simpl. by rewrite E.
  - simpl. by rewrite E.
Qed.

Lemma sum_wait_time_spec rs :
  sum_wait_time (List.filter has_wait_time rs) = sum_Z (wait_times rs).
Proof.
  unfold sum_wait_time. by rewrite fold_left_sum, filter_has_wait_time.
Qed.

Lemma length_has_wait_time rs :
  length (List.filter has_wait_time rs) = length (wait_times rs).
Proof. by rewrite <- filter_has_wait_time, length_map. Qed.

Lemma booth_status_avgLineLength booth r rs :
  BoothStatus.avgLineLength (booth_status booth (r :: rs))
  = JS.Math_round (mean (line_lengths (r :: rs))).
Proof.
  unfold booth_status, mean, length_Q, line_lengths.
  cbn [BoothStatus.avgLineLength].
  by rewrite sum_line_length_spec, length_map.
Qed.

Lemma booth_status_avgWaitTime booth r rs :
  BoothStatus.avgWaitTime (booth_status booth (r :: rs))
  = match wait_times (r :: rs) with
    | [] => 0
    | ws => JS.Math_round (mean ws)
    end.
Proof.
  unfold booth_status, mean, length_Q. cbn [BoothStatus.avgWaitTime].
  rewrite sum_wait_time_spec, length_has_wait_time.
  by destruct (wait_times (r :: rs)).
Qed.

(** C3. Per-booth aggregation: with no report fetched for the booth the
    status is [{avgLineLength: 0, avgWaitTime: 0, lastReported: "",
    reportCount: 0, trend: stable}]; otherwise [avgLineLength] is the
    rounded mean of the line lengths of all fetched reports, [avgWaitTime]
    is the rounded mean of the wait times of the fetched reports that
    carry one (0 when none does), [lastReported] is the timestamp of the
    first fetched report, which no report of the booth is newer than, and
    [reportCount] is the number of reports fetched, at most 20. *)
Theorem booth_aggregation (db : Db.t) (booth : MerchBooth.t) :
  let recentReports := Db.list_line_reports db (MerchBooth.id booth) 20 in
  let status := booth_status booth recentReports in
  (recentReports = [] ->
     status = BoothStatus.mk booth 0 0 "" 0 stable)
  /\ (recentReports <> [] ->
        rounds_to (mean (line_lengths recentReports))
          (BoothStatus.avgLineLength status)
        /\ (wait_times recentReports = [] -> BoothStatus.avgWaitTime status = 0)
        /\ (wait_times recentReports <> [] ->
              rounds_to (mean (wait_times recentReports))
                (BoothStatus.avgWaitTime status))
        /\ (exists newest,
               head recentReports = Some newest
               /\ BoothStatus.lastReported status
                  = LineReport.reported_at newest
               /\ In newest (reports_of_booth db (MerchBooth.id booth))
               /\ forall r,
                   In r (reports_of_booth db (MerchBooth.id booth)) ->
                   Db.string_le (LineReport.reported_at r)
                     (BoothStatus.lastReported status) = true))
  /\ BoothStatus.reportCount status = length recentReports
  /\ BoothStatus.reportCount status
     = Nat.min 20 (length (reports_of_booth db (MerchBooth.id booth)))
  /\ (BoothStatus.reportCount status <= 20)%nat.
Proof.
  intros recentReports status.
  assert (Hcount : BoothStatus.reportCount status = length recentReports).
  { subst status. by destruct recentReports. }
  assert (Hlen : length recentReports
                 = Nat.min 20
                     (length (reports_of_booth db (MerchBooth.id booth)))).
  { apply list_line_reports_length. }
  split; [|split; [|split; [|split]]]; [| |done|lia|lia].
  - intros Hnil. subst status. by rewrite Hnil.
  - intros Hne. subst status.
    destruct recentReports as [|first rest] eqn:Hrs; [done|].
    rewrite booth_status_avgLineLength, booth_status_avgWaitTime.
    split; [apply Math_round_rounds|].
    split; [by intros ->|].
    split.
    { intros Hw. destruct (wait_times (first :: rest)) eqn:Ew; [done|].
      apply Math_round_rounds. }
    exists first. split; [done|]. split; [done|].
    assert (Hfirst : In first (Db.list_line_reports db (MerchBooth.id booth) 20)).
    { fold recentReports. rewrite Hrs. by left. }
    apply list_line_reports_In in Hfirst as [Hin Hb].
    split.
    { apply list_elem_of_In, list_elem_of_filter.
      split; [done|by apply list_elem_of_In]. }
    intros r Hr.
    apply list_elem_of_In, list_elem_of_filter in Hr as [Hrb Hr].
    eapply list_line_reports_newest; [exact Hrs| |done].
    by apply list_elem_of_In.
Qed.

End Aggregation.

(** ** Trend *)

Section TrendRule.

Import MerchBoothTracker.

Lemma booth_status_trend booth rs :
  BoothStatus.trend (booth_status booth rs) = compute_trend rs.
Proof. by destruct rs. Qed.

Lemma compute_trend_short rs :
  (length rs < 6)%nat -> compute_trend rs = stable.
Proof.
  intros H. unfold compute_trend.
  destruct (Nat.leb_spec 6 (length rs)); [lia|done].
Qed.

Lemma compute_trend_six r1 r2 r3 r4 r5 r6 rest :
  compute_trend (r1 :: r2 :: r3 :: r4 :: r5 :: r6 :: rest)
  = let recent3 := mean (line_lengths [r1; r2; r3]) in
    let previous3 := mean (line_lengths [r4; r5; r6]) in
    if JS.lt (previous3 + (3 # 10)) recent3 then up
    else if JS.lt recent3 (previous3 - (3 # 10)) then down
    else stable.
Proof.
  unfold compute_trend. cbn [length Nat.leb take drop].
  by rewrite !sum_line_length_spec.
Qed.

(** C2. Trend: with fewer than 6 fetched reports the trend is stable;
    with at least 6, [recent3] being the mean line length of the reports
    ranked 1-3 (newest first) and [previous3] that of the reports ranked
    4-6, the trend is up iff [recent3 > previous3 + 0.3], down iff
    [recent3 < previous3 - 0.3], and stable otherwise.  For the line
    lengths 3, 3, 3, 0, 0, 0 the trend is up. *)
Theorem trend_rule (booth : MerchBooth.t) (recentReports : list LineReport.t) :
  let trend := BoothStatus.trend (booth_status booth recentReports) in
  ((length recentReports < 6)%nat -> trend = stable)
  /\ (forall r1 r2 r3 r4 r5 r6 rest,
         recentReports = r1 :: r2 :: r3 :: r4 :: r5 :: r6 :: rest ->
         let recent3 := mean (line_lengths [r1; r2; r3]) in
         let previous3 := mean (line_lengths [r4; r5; r6]) in
         (trend = up <-> (previous3 + (3 # 10) < recent3)%Q)
         /\ (trend = down <-> (recent3 < previous3 - (3 # 10))%Q)
         /\ (trend = stable
             <-> (previous3 - (3 # 10) <= recent3)%Q
                 /\ (recent3 <= previous3 + (3 # 10))%Q))
  /\ (line_lengths recentReports = [3; 3; 3; 0; 0; 0] -> trend = up).
Proof.
  intros trend. subst trend. rewrite booth_status_trend.
  split; [apply compute_trend_short|]. split.
  - intros r1 r2 r3 r4 r5 r6 rest -> recent3 previous3.
    rewrite compute_trend_six. fold recent3 previous3. cbv zeta.
    destruct (JS.lt (previous3 + (3 # 10)) recent3) eqn:Eup.
    + apply lt_true in Eup.
      repeat split; try done; lra.
    + apply lt_false in Eup.
      destruct (JS.lt recent3 (previous3 - (3 # 10))) eqn:Edown.
      * apply lt_true in Edown.
        repeat split; try done; lra.
      * apply lt_false in Edown.
        repeat split; try done; lra.
  - intros Hl.
    destruct recentReports as [|r1 [|r2 [|r3 [|r4 [|r5 [|r6 [|r7 rest]]]]]]];
      try discriminate Hl.
    injection Hl as H1 H2 H3 H4 H5 H6.
    rewrite compute_trend_six. unfold mean, line_lengths. cbn [map].
    by rewrite H1, H2, H3, H4, H5, H6.
Qed.

(** On integer line lengths the margin 0.3 never decides: the trend only
    compares the two sums, so it does not depend on how the two means and
    the margin are rounded. *)
Lemma inject_Z_lt_succ c d : c < d -> (inject_Z c + 1 <= inject_Z d)%Q.
Proof.
  intros Hcd. change 1%Q with (inject_Z 1).
  rewrite <- inject_Z_plus, <- Zle_Qle. lia.
Qed.

Lemma mean3_margin a b :
  ((inject_Z b / 3 + (3 # 10) < inject_Z a / 3)%Q <-> b < a)
  /\ ((inject_Z a / 3 < inject_Z b / 3 - (3 # 10))%Q <-> a < b).
Proof.
  unfold Qdiv. change (/ 3)%Q with (1 # 3)%Q.
  split; split; intros H.
  - apply Z.nle_gt. intros Hle. rewrite Zle_Qle in Hle.
    revert H Hle. generalize (inject_Z a) (inject_Z b). intros qa qb H Hle. lra.
  - apply inject_Z_lt_succ in H.
    revert H. generalize (inject_Z a) (inject_Z b). intros qa qb H. lra.
  - apply Z.nle_gt. intros Hle. rewrite Zle_Qle in Hle.
    revert H Hle. generalize (inject_Z a) (inject_Z b). intros qa qb H Hle. lra.
  - apply inject_Z_lt_succ in H.
    revert H. generalize (inject_Z a) (inject_Z b). intros qa qb H. lra.
Qed.

Lemma trend_compares_sums r1 r2 r3 r4 r5 r6 rest :
  let recent := sum_Z (line_lengths [r1; r2; r3]) in
  let previous := sum_Z (line_lengths [r4; r5; r6]) in
  let trend := compute_trend (r1 :: r2 :: r3 :: r4 :: r5 :: r6 :: rest) in
  (trend = up <-> previous < recent)
  /\ (trend = down <-> recent < previous)
  /\ (trend = stable <-> recent = previous).
Proof.
  intros recent previous trend. subst trend.
  rewrite compute_trend_six.
  change (mean (line_lengths [r1; r2; r3])) with (inject_Z recent / 3)%Q.
  change (mean (line_lengths [r4; r5; r6])) with (inject_Z previous / 3)%Q.
  cbv zeta.
  destruct (mean3_margin recent previous) as [Hup Hdown].
  destruct (JS.lt (inject_Z previous / 3 + (3 # 10)) (inject_Z recent / 3))
    eqn:Eup.
  - apply lt_true, Hup in Eup. repeat split; try done; lia.
  - destruct (JS.lt (inject_Z recent / 3) (inject_Z previous / 3 - (3 # 10)))
      eqn:Edown.
    + apply lt_true, Hdown in Edown. repeat split; try done; lia.
    + assert (Hnup : ~ previous < recent).
      { intros Hlt. apply Hup, lt_true in Hlt. congruence. }
      assert (Hndown : ~ recent < previous).
      { intros Hlt. apply Hdown, lt_true in Hlt. congruence. }
      repeat split; try done; lia.
Qed.

Lemma trend_rule_witness :
  BoothStatus.trend
    (booth_status (MerchBooth.mk "b1" "v1" "Main merch" 120 80 "" "")
       (map with_line_length [3; 3; 3; 0; 0; 0]))
  = up.
Proof.
  apply (trend_rule (MerchBooth.mk "b1" "v1" "Main merch" 120 80 "" "")
           (map with_line_length [3; 3; 3; 0; 0; 0])).
  reflexivity.
Defined.

End TrendRule.

(** ** The aggregation on a small store *)

Example sample_listing :
  map LineReport.id (Db.list_line_reports sample_db "b1" 20)
  = ["r8"; "r7"; "r6"; "r5"; "r4"; "r2"; "r1"]%string.
Proof. vm_compute. reflexivity. Qed.

Example sample_status :
  MerchBoothTracker.booth_status sample_booth
    (Db.list_line_reports sample_db "b1" 20)
  = BoothStatus.mk sample_booth 2 16 "2024-06-01T20:30:00.000Z" 7 up.
Proof. vm_compute. reflexivity. Qed.

(** Three reports with line lengths 1, 2, 3 and no wait time. *)
Example three_reports_status :
  MerchBoothTracker.booth_status sample_booth
    [sample_report "r3" "b1" 1 None "2024-06-01T20:10:00.000Z";
     sample_report "r2" "b1" 2 None "2024-06-01T20:05:00.000Z";
     sample_report "r1" "b1" 3 None "2024-06-01T20:00:00.000Z"]
  = BoothStatus.mk sample_booth 2 0 "2024-06-01T20:10:00.000Z" 3 stable.
Proof. vm_compute. reflexivity. Qed.

Lemma booth_aggregation_witness :
  rounds_to (mean (line_lengths (Db.list_line_reports sample_db "b1" 20)))
    (BoothStatus.avgLineLength
       (MerchBoothTracker.booth_status sample_booth
          (Db.list_line_reports sample_db "b1" 20)))
  /\ rounds_to (mean (wait_times (Db.list_line_reports sample_db "b1" 20)))
       (BoothStatus.avgWaitTime
          (MerchBoothTracker.booth_status sample_booth
             (Db.list_line_reports sample_db "b1" 20))).
Proof.
  destruct (booth_aggregation sample_db sample_booth) as [_ [H _]].
  destruct H as [Hline [_ [Hwait _]]]; [discriminate|].
  split; [exact Hline|]. apply Hwait. discriminate.
Defined.

(** ** Submitting a line report *)

Section Submission.

Import MerchBoothTracker.

Lemma parseInt_Some_truthy s n : JS.parseInt s = Some n -> JS.truthy s = true.
Proof. by destruct s. Qed.

Lemma wait_time_value_parses w :
  w = ""%string \/ In w wait_time_values ->
  exists wait,
    (if JS.truthy w then Some <$> JS.parseInt w else Some None) = Some wait.
Proof.
  intros [->|Hin]; [by exists None|].
  simpl in Hin.
  destruct Hin as [<-|[<-|[<-|[<-|[<-|[<-|[]]]]]]]; by eexists.
Qed.

Lemma loadBoothStatuses_calls env venueId db st :
  exists more,
    (loadBoothStatuses env venueId db st).2 = ListMerchBooths venueId :: more.
Proof. unfold loadBoothStatuses. destruct (list_ok env); by eexists. Qed.

Lemma loadBoothStatuses_statuses env venueId db st :
  list_ok env = true ->
  boothStatuses (loadBoothStatuses env venueId db st).1
  = compute_statuses db venueId.
Proof. intros H. unfold loadBoothStatuses. by rewrite H. Qed.

(** What [submitReport] does once the guard is passed and both numbers
    parse. *)
Lemma submitReport_runs env venueId db st u row :
  user st = Some u ->
  JS.truthy (selectedBooth st) = true ->
  JS.truthy (reportLineLength st) = true ->
  new_report env st u = Some row ->
  create_ok env = true ->
  submitReport env venueId db st
  = Ran (reset_form
           (loadBoothStatuses env venueId (Db.create_line_report db row) st).1)
        (Db.create_line_report db row)
        (CreateLineReport row
           :: (loadBoothStatuses env venueId
                 (Db.create_line_report db row) st).2).
Proof.
  intros Hu Hb Hl Hrow Hok. unfold submitReport.
  rewrite Hu, Hb, Hl, Hrow, Hok. simpl.
  by destruct (loadBoothStatuses env venueId (Db.create_line_report db row) st).
Qed.

(** C7. Report submission: with a booth chosen, a user signed in, the
    line length set to one of the four levels 0, 1, 2, 3 and the wait
    time left empty or set to one of its options, the submit button is
    enabled (no submission being under way) and [submitReport], the
    store accepting the row, creates one new report with that line
    length, booth and user, appended after the existing reports, which
    are all kept as they were; it then refreshes the booth statuses
    from the store that holds the new report. *)
Theorem submit_appends_report env venueId (db : Db.t) (st : State)
    (u : User.t) (n : Z) :
  user st = Some u ->
  JS.truthy (selectedBooth st) = true ->
  In (n, reportLineLength st) line_length_levels ->
  reportWaitTime st = ""%string \/ In (reportWaitTime st) wait_time_values ->
  create_ok env = true ->
  exists row st' calls,
    submitReport env venueId db st
    = Ran st' (Db.create_line_report db row) (CreateLineReport row :: calls)
    /\ Db.line_reports (Db.create_line_report db row)
       = Db.line_reports db ++ [row]
    /\ LineReport.line_length row = n
    /\ LineReport.booth_id row = selectedBooth st
    /\ LineReport.user_id row = User.id u
    /\ (exists more, calls = ListMerchBooths venueId :: more)
    /\ (list_ok env = true ->
        boothStatuses st'
        = compute_statuses (Db.create_line_report db row) venueId)
    /\ (isReporting st = false -> submit_disabled st = false).
Proof.
  intros Hu Hb Hn Hw Hok.
  assert (Hparse : JS.parseInt (reportLineLength st) = Some n).
  { simpl in Hn.
    destruct Hn as [[= <- <-]|[[= <- <-]|[[= <- <-]|[[= <- <-]|[]]]]]; done. }
  destruct (wait_time_value_parses _ Hw) as [wait Hwait].
  pose proof (parseInt_Some_truthy _ _ Hparse) as Hl.
  set (row := {| LineReport.id :=
                   "report_" +:+ now_ms env +:+ "_" +:+ random_suffix env;
                 LineReport.booth_id := selectedBooth st;
                 LineReport.user_id := User.id u;
                 LineReport.line_length := n;
                 LineReport.wait_time_minutes := wait;
                 LineReport.reported_at := now_iso env |}).
  assert (Hrow : new_report env st u = Some row).
  { unfold new_report. rewrite Hparse. simpl. by rewrite Hwait. }
  eexists row, _, _. split; [by apply (submitReport_runs _ _ _ _ u)|].
  repeat split; try done.
  - apply loadBoothStatuses_calls.
  - intros Hlist. simpl. by apply loadBoothStatuses_statuses.
  - intros Hrep. unfold submit_disabled. by rewrite Hb, Hl, Hrep.
Qed.

End Submission.

Section WaitTime.

Import MerchBoothTracker.

Lemma submit_appends_report_witness :
  exists row st' calls,
    submitReport sample_env "v1" sample_db (sample_form "10")
    = Ran st' (Db.create_line_report sample_db row)
          (CreateLineReport row :: calls)
    /\ Db.line_reports (Db.create_line_report sample_db row)
       = Db.line_reports sample_db ++ [row]
    /\ LineReport.line_length row = 2.
Proof.
  destruct (submit_appends_report sample_env "v1" sample_db
              (sample_form "10") sample_user 2)
    as (row & st' & calls & Hrun & Happ & Hlen & _).
  - reflexivity.
  - reflexivity.
  - simpl. auto.
  - right. simpl. auto.
  - reflexivity.
  - by exists row, st', calls.
Defined.




End WaitTime.

(** ** One location per user *)

Section OneLocationPerUser.

Import App.

Lemma on_message_user_ids message prev :
  NoDup (user_ids prev) -> NoDup (user_ids (on_message message prev)).
Proof.
  unfold user_ids. intros Hnd. destruct message as [data|userId|type]; simpl.
  - rewrite map_app. simpl. apply NoDup_app. split; [|split].
    + induction prev as [|l prev IH]; simpl; [constructor|].
      apply NoDup_cons in Hnd as [Hnotin Hnd].
      rewrite filter_cons. case_decide; [|by apply IH].
      simpl. apply NoDup_cons. split; [|by apply IH].
      intros Hin. apply Hnotin.
      apply list_elem_of_fmap in Hin as (l' & -> & Hl').
      apply list_elem_of_filter in Hl' as [_ Hl'].
      apply list_elem_of_fmap. eauto.
    + intros x Hx Hx'. apply list_elem_of_singleton in Hx' as ->.
      apply list_elem_of_fmap in Hx as (l' & Heq & Hl').
      apply list_elem_of_filter in Hl' as [Hne _]. by apply Hne.
    + apply NoDup_singleton.
  - induction prev as [|l prev IH]; simpl; [constructor|].
    apply NoDup_cons in Hnd as [Hnotin Hnd].
    rewrite filter_cons. case_decide; [|by apply IH].
    simpl. apply NoDup_cons. split; [|by apply IH].
    intros Hin. apply Hnotin.
    apply list_elem_of_fmap in Hin as (l' & -> & Hl').
    apply list_elem_of_filter in Hl' as [_ Hl'].
    apply list_elem_of_fmap. eauto.
  - done.
Qed.

Lemma entries_of_other_users userId prev :
  entries_of userId
    (filter (fun loc => UserLocation.user_id loc ≠ userId) prev) = [].
Proof.
  unfold entries_of. induction prev as [|l prev IH]; [done|].
  rewrite filter_cons. case_decide; [|done].
  rewrite filter_cons. by case_decide.
Qed.

Lemma entries_of_app userId l1 l2 :
  entries_of userId (l1 ++ l2) = entries_of userId l1 ++ entries_of userId l2.
Proof. unfold entries_of. apply filter_app. Qed.

(** After a location update the list holds the new row, and no other,
    for its user. *)
Lemma location_update_replaces data prev :
  entries_of (UserLocation.user_id data) (on_message (LocationUpdate data) prev)
  = [data].
Proof.
  simpl. rewrite entries_of_app, entries_of_other_users. simpl.
  unfold entries_of. rewrite filter_cons. by case_decide.
Qed.

Lemma user_left_removes userId prev :
  entries_of userId (on_message (UserLeft userId) prev) = [].
Proof. apply entries_of_other_users. Qed.

Lemma receive_all_user_ids st messages :
  NoDup (user_ids (userLocations st)) ->
  NoDup (user_ids (userLocations (foldl receive st messages))).
Proof.
  revert st. induction messages as [|m messages IH]; intros st H; [done|].
  simpl. apply IH. unfold receive.
  destruct (currentRoom st); [|done]. simpl.
  by apply on_message_user_ids.
Qed.

End OneLocationPerUser.

Section StoredLocations.

Import App.

Lemma filter_map_snd (P : UserLocation.t -> Prop) `{!forall l, Decision (P l)}
    (rows : list (string * UserLocation.t)) :
  filter P (map snd rows) = map snd (filter (fun kr => P kr.2) rows).
Proof.
  induction rows as [|kr rows IH]; [done|].
  simpl. rewrite !filter_cons. case_decide; simpl; by rewrite IH.
Qed.

(** A store keyed this way lists at most one row per user for a room. *)
Lemma list_user_locations_user_ids db roomId :
  keyed_by_user_and_room (Db.user_locations db) ->
  NoDup (user_ids (Db.list_user_locations db roomId)).
Proof.
  intros Hkeyed. unfold user_ids, Db.list_user_locations.
  rewrite filter_map_snd, map_map.
  apply NoDup_fmap_2_strong.
  - intros [k1 r1] [k2 r2] H1 H2 Huser. simpl in Huser.
    apply list_elem_of_filter in H1 as [Hroom1 H1].
    apply list_elem_of_filter in H2 as [Hroom2 H2].
    simpl in Hroom1, Hroom2.
    apply elem_of_map_to_list in H1, H2.
    destruct (Hkeyed _ _ H1) as [-> Hid1].
    destruct (Hkeyed _ _ H2) as [-> Hid2].
    assert (Hid : UserLocation.id r1 = UserLocation.id r2).
    { by rewrite Hid1, Hid2, Huser, Hroom1, Hroom2. }
    assert (Hrow : Some r1 = Some r2).
    { rewrite <- H1, <- H2. by rewrite Hid. }
    injection Hrow as ->. done.
  - apply NoDup_filter, NoDup_map_to_list.
Qed.

Lemma upsert_keeps_keyed db u room x y sectionName :
  keyed_by_user_and_room (Db.user_locations db) ->
  keyed_by_user_and_room
    (Db.user_locations
       (Db.upsert_user_location db (locationData u room x y sectionName))).
Proof.
  intros Hkeyed k row. simpl. rewrite lookup_insert.
  case_decide as Hk.
  - intros Hrow. injection Hrow as <-. by rewrite <- Hk.
  - apply Hkeyed.
Qed.

Lemma handleLocationUpdate_db env db st u room x y sectionName :
  user st = Some u ->
  currentRoom st = Some room ->
  upsert_ok env = true ->
  (handleLocationUpdate env db st x y sectionName).1.1
  = Db.upsert_user_location db (locationData u room x y sectionName)
  /\ user (handleLocationUpdate env db st x y sectionName).1.2 = Some u
  /\ currentRoom (handleLocationUpdate env db st x y sectionName).1.2
     = Some room.
Proof.
  intros Hu Hr Hok. unfold handleLocationUpdate. rewrite Hu, Hr, Hok.
  by destruct (publish_ok env).
Qed.

(** C8. At most one location per user: the row written for a user in a
    room has id "<userId>-<roomId>" ("u1-R1" for user u1 in room R1); a
    second write by the same user in the same room replaces the row of
    the first, leaving the same set of row ids and the other rows as they
    were, and a store written this way lists one row per user for a room,
    so the list loaded on joining a room has one entry per user.
    The realtime handler keeps at most one entry per user id in
    [userLocations]: a location update leaves exactly the new row for its
    user, a user-left message leaves none, and no message introduces a
    second entry for any user. *)
Theorem one_location_per_user env (db : Db.t) (st : State) (u : User.t)
    (room : Room.t) x1 y1 s1 x2 y2 s2 (message : Message)
    (prev : list UserLocation.t) :
  user st = Some u ->
  currentRoom st = Some room ->
  upsert_ok env = true ->
  let id := User.id u +:+ "-" +:+ Room.id room in
  let first := handleLocationUpdate env db st x1 y1 s1 in
  let second := handleLocationUpdate env first.1.1 first.1.2 x2 y2 s2 in
  UserLocation.id (locationData u room x2 y2 s2) = id
  /\ (User.id u = "u1"%string -> Room.id room = "R1"%string ->
      id = "u1-R1"%string)
  /\ Db.user_locations first.1.1 !! id = Some (locationData u room x1 y1 s1)
  /\ Db.user_locations second.1.1 !! id = Some (locationData u room x2 y2 s2)
  /\ dom (Db.user_locations second.1.1) = dom (Db.user_locations first.1.1)
  /\ size (Db.user_locations second.1.1) = size (Db.user_locations first.1.1)
  /\ (forall k, k <> id ->
                Db.user_locations second.1.1 !! k = Db.user_locations db !! k)
  /\ (keyed_by_user_and_room (Db.user_locations db) ->
      forall roomId messages,
        NoDup (user_ids (Db.list_user_locations second.1.1 roomId))
        /\ NoDup (user_ids
                    (userLocations
                       (foldl receive
                          (loadRoomLocations second.1.1 second.1.2 roomId)
                          messages))))
  /\ (NoDup (user_ids prev) -> NoDup (user_ids (on_message message prev)))
  /\ (forall data,
         entries_of (UserLocation.user_id data)
           (on_message (LocationUpdate data) prev) = [data])
  /\ (forall userId, entries_of userId (on_message (UserLeft userId) prev) = [])
  /\ (forall messages,
         NoDup (user_ids (userLocations st)) ->
         NoDup (user_ids (userLocations (foldl receive st messages)))).
Proof.
  intros Hu Hr Hok id first second.
  destruct (handleLocationUpdate_db env db st u room x1 y1 s1 Hu Hr Hok)
    as (Hdb1 & Hu1 & Hr1).
  destruct (handleLocationUpdate_db env first.1.1 first.1.2 u room x2 y2 s2
              Hu1 Hr1 Hok) as (Hdb2 & _ & _).
  fold first in Hdb1. fold second in Hdb2.
  rewrite Hdb2, Hdb1. simpl. fold id.
  split; [done|].
  split; [intros Hid Hroom; subst id; by rewrite Hid, Hroom|].
  split; [apply lookup_insert_eq|]. split; [apply lookup_insert_eq|].
  assert (Hdom :
    dom (<[id:=locationData u room x2 y2 s2]>
           (<[id:=locationData u room x1 y1 s1]> (Db.user_locations db)))
    = dom (<[id:=locationData u room x1 y1 s1]> (Db.user_locations db))).
  { by rewrite insert_insert_eq, !dom_insert_L. }
  split; [done|].
  split; [by rewrite <- !(size_dom (D:=gset string)), Hdom|].
  split; [intros k Hk; by rewrite !lookup_insert_ne|].
  split.
  { intros Hkeyed roomId messages.
    assert (Hlist :
      NoDup (user_ids
               (Db.list_user_locations
                  (Db.upsert_user_location
                     (Db.upsert_user_location db (locationData u room x1 y1 s1))
                     (locationData u room x2 y2 s2)) roomId))).
    { apply list_user_locations_user_ids. by do 2 apply upsert_keeps_keyed. }
    split; [done|]. by apply receive_all_user_ids. }
  split; [apply on_message_user_ids|].
  split; [intros data; apply location_update_replaces|].
  split; [intros userId; apply user_left_removes|].
  intros messages. apply receive_all_user_ids.
Qed.

End StoredLocations.

Lemma one_location_per_user_witness :
  let first :=
    App.handleLocationUpdate (App.mkEnv true true) sample_db sample_app
      120 80 (Some "Floor"%string) in
  let second :=
    App.handleLocationUpdate (App.mkEnv true true) first.1.1 first.1.2
      300 310 None in
  Db.user_locations second.1.1 !! "u1-R1"%string
  = Some (App.locationData sample_user sample_room 300 310 None)
  /\ size (Db.user_locations second.1.1) = size (Db.user_locations first.1.1).
Proof.
  intros first second.
  destruct (one_location_per_user (App.mkEnv true true) sample_db sample_app
              sample_user sample_room 120 80 (Some "Floor"%string) 300 310 None
              (App.UserLeft "u2") [] eq_refl eq_refl eq_refl)
    as (_ & _ & _ & Hsecond & _ & Hsize & _).
  split; [exact Hsecond|exact Hsize].
Defined.

Example on_message_example :
  user_ids
    (foldl App.receive sample_app
       [App.LocationUpdate (App.locationData sample_user sample_room 1 2 None);
        App.LocationUpdate
          (App.locationData (User.mk "u2" "u2@example.org" (Some "Ann Lee"))
             sample_room 5 6 None);
        App.LocationUpdate (App.locationData sample_user sample_room 3 4 None);
        App.OtherMessage "typing";
        App.UserLeft "u2";
        App.LocationUpdate (App.locationData sample_user sample_room 7 8 None)]).(App.userLocations)
  = ["u1"]%string.
Proof. vm_compute. reflexivity. Qed.

(** * Further properties of the components *)

(** ** Panning and zooming *)

Section Panning.

Import SeatingChart.

Lemma moves_while_dragging venueData svgRef st moves move :
  isDragging st = true ->
  (run venueData svgRef st (map MouseMove (moves ++ [move]))).1
  = {| zoom := zoom st;
       pan := Point.mk (clientX move - Point.x (dragStart st))
                       (clientY move - Point.y (dragStart st));
       isDragging := true; dragStart := dragStart st |}.
Proof.
  revert st. induction moves as [|m moves IH]; intros st Hdrag.
  - simpl. unfold handleMouseMove. by rewrite Hdrag.
  - rewrite <- app_comm_cons, map_cons, run_cons. cbn [step fst].
    rewrite IH; unfold handleMouseMove; rewrite Hdrag; done.
Qed.

(** X1. Dragging: after a left-button press and any pointer movement, the
    pan is the pan at the press plus the pointer's displacement since the
    press, whatever path the pointer took, and the zoom is unchanged; so
    the chart point that was under the pointer at the press is the chart
    point under the pointer now. *)
Theorem drag_keeps_grabbed_point venueData svgRef rect (st : State)
    (down : MouseEvent) (moves : list MouseEvent) (move : MouseEvent) :
  button down = 0 ->
  let st' :=
    (run venueData svgRef st
       (MouseDown down :: map MouseMove (moves ++ [move]))).1 in
  isDragging st' = true
  /\ zoom st' = zoom st
  /\ (Point.x (pan st')
      == Point.x (pan st) + (clientX move - clientX down))%Q
  /\ (Point.y (pan st')
      == Point.y (pan st) + (clientY move - clientY down))%Q
  /\ point_eq (click_to_logical rect st' move) (click_to_logical rect st down).
Proof.
  intros Hleft st'. subst st'. rewrite run_cons. cbn [step fst].
  unfold handleMouseDown. rewrite Hleft. cbn [Z.eqb].
  rewrite moves_while_dragging by done.
  unfold point_eq, click_to_logical.
  cbn [zoom pan isDragging dragStart Point.x Point.y].
  split; [done|]. split; [done|].
  split; [ring|]. split; [ring|].
  split; unfold Qdiv; (apply Qmult_comp; [ring|reflexivity]).
Qed.

Lemma drag_keeps_grabbed_point_witness :
  point_eq
    (click_to_logical (mkRect 8 16)
       (run (VenueData.mk []) None
          (mkState 2 (Point.mk 10 20) false (Point.mk 0 0))
          (MouseDown (mkMouse 0 100 100)
             :: map MouseMove [mkMouse 0 120 90; mkMouse 0 180 60])).1
       (mkMouse 0 180 60))
    (click_to_logical (mkRect 8 16)
       (mkState 2 (Point.mk 10 20) false (Point.mk 0 0)) (mkMouse 0 100 100)).
Proof.
  apply (drag_keeps_grabbed_point (VenueData.mk []) None (mkRect 8 16)
           (mkState 2 (Point.mk 10 20) false (Point.mk 0 0))
           (mkMouse 0 100 100) [mkMouse 0 120 90] (mkMouse 0 180 60)).
  reflexivity.
Defined.

Lemma step_keeps_pan venueData svgRef st ev :
  isDragging st = false ->
  keeps_pan ev ->
  pan (step venueData svgRef st ev).1 = pan st
  /\ isDragging (step venueData svgRef st ev).1 = false.
Proof.
  intros Hdrag Hev. destruct ev; simpl in *; try done.
  - unfold handleMouseDown. destruct (Z.eqb_spec (button e) 0); done.
  - unfold handleMouseMove. by rewrite Hdrag.
Qed.

(** X2. Without a left-button press there is no pan: from a state that is
    not dragging, events that contain no left-button press and no reset
    (pointer movement, presses of other buttons, releases, clicks, zoom
    buttons) leave the pan as it was and never start a drag. *)
Theorem pan_needs_left_press venueData svgRef (st : State) (evs : list Event) :
  isDragging st = false ->
  Forall keeps_pan evs ->
  pan (run venueData svgRef st evs).1 = pan st
  /\ isDragging (run venueData svgRef st evs).1 = false.
Proof.
  intros Hdrag Hevs. revert st Hdrag.
  induction Hevs as [|ev evs Hev _ IH]; intros st Hdrag; [done|].
  rewrite run_cons. cbn [fst].
  destruct (step_keeps_pan venueData svgRef st ev Hdrag Hev) as [Hpan Hdrag'].
  destruct (IH _ Hdrag') as [IHpan IHdrag]. split; [congruence|done].
Qed.

Lemma pan_needs_left_press_witness :
  pan (run (VenueData.mk []) None
         (mkState 1 (Point.mk 30 40) false (Point.mk 0 0))
         [MouseMove (mkMouse 0 5 5); MouseDown (mkMouse 2 10 10);
          MouseMove (mkMouse 0 90 70); ZoomInButton; MouseUp;
          Click (mkMouse 0 90 70); MouseLeave]).1
  = Point.mk 30 40.
Proof.
  apply (pan_needs_left_press (VenueData.mk []) None
           (mkState 1 (Point.mk 30 40) false (Point.mk 0 0))).
  - reflexivity.
  - repeat constructor. simpl. discriminate.
Defined.

(** X3. The zoom buttons: zoom-in never gives more than 3 and zoom-out
    never less than 0.5, from any zoom; within [[0.5, 3]] zoom-in does not
    lower the zoom and zoom-out does not raise it; from 2.5 upwards zoom-in
    gives 3 and from 0.6 downwards zoom-out gives 0.5; neither button moves
    the pan or touches a drag in progress. *)
Theorem zoom_buttons_saturate (st : State) :
  (zoom (handleZoomIn st) <= 3)%Q
  /\ (1 # 2 <= zoom (handleZoomOut st))%Q
  /\ (zoom_in_range st ->
      (zoom st <= zoom (handleZoomIn st))%Q
      /\ (zoom (handleZoomOut st) <= zoom st)%Q)
  /\ ((5 # 2 <= zoom st)%Q -> (zoom (handleZoomIn st) == 3)%Q)
  /\ ((zoom st <= 6 # 10)%Q -> (zoom (handleZoomOut st) == 1 # 2)%Q)
  /\ pan (handleZoomIn st) = pan st
  /\ pan (handleZoomOut st) = pan st
  /\ isDragging (handleZoomIn st) = isDragging st
  /\ isDragging (handleZoomOut st) = isDragging st.
Proof.
  unfold handleZoomIn, handleZoomOut; simpl.
  assert (Hdiv : forall z : Q, (z / (12 # 10) == z * (10 # 12))%Q).
  { intros z. unfold Qdiv. reflexivity. }
  split; [apply Q.le_min_r|]. split; [apply Q.le_max_r|].
  split; [|split; [|split; [|done]]].
  - intros [Hlo Hhi]. split.
    + apply Q.min_glb; lra.
    + apply Q.max_lub; [|lra]. rewrite Hdiv. lra.
  - intros H. apply Q.min_r. lra.
  - intros H. apply Q.max_r. rewrite Hdiv. lra.
Qed.

Lemma zoom_buttons_saturate_witness :
  (zoom (handleZoomIn (mkState (27 # 10) (Point.mk 0 0) false (Point.mk 0 0)))
   == 3)%Q.
Proof.
  apply (zoom_buttons_saturate
           (mkState (27 # 10) (Point.mk 0 0) false (Point.mk 0 0))).
  simpl. unfold Qle. simpl. lia.
Defined.

End Panning.

(** ** Initials and captions *)

Section Initials.

Lemma chars_length s : String.length s = length (chars s).
Proof. induction s as [|c s IH]; simpl; [done|]. by rewrite IH. Qed.

Lemma chars_empty s : chars s = [] <-> s = EmptyString.
Proof. by destruct s. Qed.

Lemma chars_slice_to n s : chars (JS.slice_to n s) = take n (chars s).
Proof.
  unfold JS.slice_to. revert s. induction n as [|n IH]; intros [|c s]; simpl;
    try done.
  by rewrite IH.
Qed.

Lemma chars_toUpperCase s : chars (JS.toUpperCase s) = map JS.upper_char (chars s).
Proof. induction s as [|c s IH]; simpl; [done|]. by rewrite IH. Qed.

Lemma chars_join_chars cs : chars (JS.join_chars cs) = omap id cs.
Proof.
  induction cs as [|[c|] cs IH]; simpl; [done| |done].
  by rewrite IH.
Qed.

Lemma upper_char_idem c : JS.upper_char (JS.upper_char c) = JS.upper_char c.
Proof. destruct c as [[] [] [] [] [] [] [] []]; reflexivity. Qed.

Lemma upper_char_space c : JS.upper_char c = space -> c = space.
Proof. destruct c as [[] [] [] [] [] [] [] []]; simpl; done. Qed.

Lemma split_nonempty sep s : JS.split sep s <> [].
Proof.
  destruct s as [|c s]; simpl; [done|].
  destruct (Ascii.eqb c sep); [done|]. by destruct (JS.split sep s).
Qed.

(** No piece of a split contains the separator. *)
Lemma split_pieces sep s :
  Forall (fun w => Forall (fun c => c <> sep) (chars w)) (JS.split sep s).
Proof.
  induction s as [|c s IH]; simpl; [by repeat constructor|].
  destruct (Ascii.eqb_spec c sep) as [->|Hne].
  - constructor; [constructor|done].
  - destruct (JS.split sep s) as [|w ws]; [by repeat constructor|].
    apply Forall_cons in IH as [Hw Hws].
    constructor; [|done]. simpl. by constructor.
Qed.

(** All pieces are empty exactly when the string is made of separators. *)
Lemma split_all_empty sep s :
  Forall (fun w => w = EmptyString) (JS.split sep s)
  <-> Forall (fun c => c = sep) (chars s).
Proof.
  induction s as [|c s IH]; simpl; [by split; repeat constructor|].
  destruct (Ascii.eqb_spec c sep) as [->|Hne].
  - rewrite !Forall_cons. tauto.
  - split.
    + destruct (JS.split sep s); intros H; apply Forall_cons in H as [? _]; done.
    + intros H. apply Forall_cons in H as [? _]; done.
Qed.

Lemma first_chars_of_pieces sep s :
  Forall (fun c => c <> sep) (omap JS.first_char (JS.split sep s)).
Proof.
  pose proof (split_pieces sep s) as H.
  induction H as [|w ws Hw _ IH]; simpl; [constructor|].
  destruct w as [|c w]; simpl; [done|].
  apply Forall_cons in Hw as [Hc _]. by constructor.
Qed.

Lemma first_chars_empty ws :
  omap JS.first_char ws = [] <-> Forall (fun w => w = EmptyString) ws.
Proof.
  induction ws as [|[|c w] ws IH]; simpl.
  - by split; constructor.
  - rewrite Forall_cons. tauto.
  - split; [done|]. intros H. apply Forall_cons in H as [? _]; done.
Qed.

Lemma omap_id_map_first_char ws :
  omap id (map JS.first_char ws) = omap JS.first_char ws.
Proof.
  induction ws as [|[|c w] ws IH]; simpl; [done|done|]. by f_equal.
Qed.

(** The initials are the first characters of the first two non-empty
    words, in upper case. *)
Lemma chars_getInitials name :
  chars (SeatingChart.getInitials name)
  = take 2 (map JS.upper_char (omap JS.first_char (JS.split " " name))).
Proof.
  unfold SeatingChart.getInitials.
  by rewrite chars_slice_to, chars_toUpperCase, chars_join_chars,
       omap_id_map_first_char.
Qed.

(** X5. Initials (ASCII names): the two copies of [getInitials] agree; the
    initials have at most two characters, none of them a space or a
    lower-case letter; they are empty exactly when the name is empty or all
    spaces; their number is the number of non-empty words of the name,
    capped at two. *)
Theorem initials_shape (name : string) :
  FriendsList.getInitials name = SeatingChart.getInitials name
  /\ (String.length (SeatingChart.getInitials name) <= 2)%nat
  /\ Forall (fun c => c <> space /\ JS.upper_char c = c)
        (chars (SeatingChart.getInitials name))
  /\ (SeatingChart.getInitials name = EmptyString
      <-> Forall (fun c => c = space) (chars name))
  /\ (String.length (SeatingChart.getInitials name)
      = Nat.min 2
          (length (filter (fun w => w <> EmptyString) (JS.split " " name)))).
Proof.
  split; [done|]. unfold space.
  rewrite chars_length, <- chars_empty, chars_getInitials.
  split; [rewrite length_take; lia|]. split; [|split].
  - apply Forall_take, Forall_fmap.
    eapply Forall_impl; [apply first_chars_of_pieces|].
    intros c Hc. simpl. split; [|apply upper_char_idem].
    intros Hsp. by apply Hc, upper_char_space.
  - rewrite <- split_all_empty, <- first_chars_empty.
    destruct (omap JS.first_char (JS.split " " name)) as [|c [|c' cs]]; done.
  - rewrite length_take, length_map. f_equal.
    generalize (JS.split " " name). intros ws.
    induction ws as [|[|c w] ws IH]; [done| |].
    + rewrite filter_cons. case_decide; [done|]. exact IH.
    + rewrite filter_cons. case_decide; [|done]. simpl. by f_equal.
Qed.

Example initials_examples :
  SeatingChart.getInitials "Ann Lee" = "AL"%string
  /\ SeatingChart.getInitials "  mary  jane watson" = "MJ"%string
  /\ SeatingChart.getInitials "cher" = "C"%string
  /\ SeatingChart.getInitials "   " = ""%string.
Proof. repeat split; reflexivity. Qed.

(** The first piece of a split is the string up to its first separator. *)
Lemma split_first sep s :
  exists w ws,
    JS.split sep s = w :: ws
    /\ Forall (fun c => c <> sep) (chars w)
    /\ (s = w \/ exists rest, s = w +:+ String sep rest).
Proof.
  induction s as [|c s IH]; simpl.
  - exists EmptyString, []. repeat split; [constructor|by left].
  - destruct (Ascii.eqb_spec c sep) as [->|Hne].
    + exists EmptyString, (JS.split sep s).
      repeat split; [constructor|]. right. by exists s.
    + destruct IH as (w & ws & -> & Hw & Hs).
      exists (String c w), ws. repeat split; [by constructor|].
      destruct Hs as [->|[rest ->]]; [by left|]. right. by exists rest.
Qed.

(** X6. Marker caption: the viewer's own marker is captioned "You"; any
    other marker is captioned with the part of the user's name before its
    first space (the whole name when it has none), which contains no
    space. *)
Theorem marker_caption_is_first_name (currentUserId : string)
    (location : UserLocation.t) :
  (UserLocation.user_id location = currentUserId ->
   SeatingChart.marker_caption currentUserId location = "You"%string)
  /\ (UserLocation.user_id location <> currentUserId ->
      let caption := SeatingChart.marker_caption currentUserId location in
      Forall (fun c => c <> space) (chars caption)
      /\ (UserLocation.user_name location = caption
          \/ exists rest,
              UserLocation.user_name location
              = caption +:+ String space rest)).
Proof.
  unfold SeatingChart.marker_caption. split.
  - intros ->. by rewrite String.eqb_refl.
  - intros Hne. apply String.eqb_neq in Hne. rewrite Hne.
    destruct (split_first space (UserLocation.user_name location))
      as (w & ws & Hsplit & Hw & Hname).
    fold space. rewrite Hsplit. by split.
Qed.

Lemma marker_caption_is_first_name_witness :
  SeatingChart.marker_caption "u1"
    (App.locationData (User.mk "u2" "u2@example.org" (Some "Ann Lee"%string))
       sample_room 5 6 None)
  = "Ann"%string.
Proof.
  destruct (marker_caption_is_first_name "u1"
              (App.locationData
                 (User.mk "u2" "u2@example.org" (Some "Ann Lee"%string))
                 sample_room 5 6 None)) as [_ H].
  destruct H as [_ _]; [discriminate|]. reflexivity.
Defined.

End Initials.

(** ** The friends list *)

Section FriendsListRows.

Lemma friends_without_viewer ls currentUserId :
  currentUserId ∉ user_ids ls -> FriendsList.friends ls currentUserId = ls.
Proof.
  unfold FriendsList.friends, user_ids.
  induction ls as [|l ls IH]; intros Hnotin; [done|].
  apply not_elem_of_cons in Hnotin as [Hne Hnotin].
  rewrite filter_cons. case_decide; [|done]. by rewrite IH.
Qed.

Lemma myLocation_None ls currentUserId :
  FriendsList.myLocation ls currentUserId = None
  <-> currentUserId ∉ user_ids ls.
Proof.
  unfold FriendsList.myLocation, user_ids.
  induction ls as [|l ls IH]; simpl.
  - split; [intros _; apply not_elem_of_nil|done].
  - case_bool_decide as Hl.
    + split; [done|]. intros Hnotin. exfalso. apply Hnotin. rewrite Hl. left.
    + rewrite IH, not_elem_of_cons. split; [by split|by intros []].
Qed.

Lemma myLocation_Some ls currentUserId mine :
  FriendsList.myLocation ls currentUserId = Some mine ->
  UserLocation.user_id mine = currentUserId /\ mine ∈ ls.
Proof.
  unfold FriendsList.myLocation.
  induction ls as [|l ls IH]; simpl; [done|].
  case_bool_decide as Hl.
  - intros [= <-]. split; [done|left].
  - intros H. destruct (IH H). split; [done|by right].
Qed.

(** X7. The friends list shows everyone once: when the list holds at most
    one entry per user, the rows rendered (the viewer's own entry, then the
    friends) are a rearrangement of the list, so their number is the count
    in the header; the friends' keys are distinct and never the viewer's
    id; the viewer's row is found exactly when the viewer is in the
    list. *)
Theorem friends_list_shows_everyone (userLocations : list UserLocation.t)
    (currentUserId : string) :
  NoDup (user_ids userLocations) ->
  Permutation (FriendsList.rows userLocations currentUserId) userLocations
  /\ length (FriendsList.rows userLocations currentUserId)
     = length userLocations
  /\ NoDup (user_ids (FriendsList.friends userLocations currentUserId))
  /\ Forall (fun f => UserLocation.user_id f <> currentUserId)
       (FriendsList.friends userLocations currentUserId)
  /\ (forall mine,
         FriendsList.myLocation userLocations currentUserId = Some mine ->
         UserLocation.user_id mine = currentUserId /\ mine ∈ userLocations)
  /\ (FriendsList.myLocation userLocations currentUserId = None
      <-> currentUserId ∉ user_ids userLocations).
Proof.
  intros Hnd.
  assert (Hperm :
    Permutation (FriendsList.rows userLocations currentUserId) userLocations).
  { unfold FriendsList.rows.
    induction userLocations as [|l ls IH]; [done|].
    apply NoDup_cons in Hnd as [Hl Hnd]. specialize (IH Hnd).
    unfold FriendsList.myLocation in *. simpl.
    unfold FriendsList.friends at 1 2. rewrite filter_cons.
    fold (FriendsList.friends ls currentUserId).
    case_bool_decide as Hcur; case_decide; try done.
    - subst currentUserId.
      by rewrite (friends_without_viewer ls (UserLocation.user_id l) Hl).
    - destruct (JS.find _ ls) as [mine|].
      + rewrite perm_swap. by constructor.
      + by constructor. }
  split; [done|]. split; [by rewrite Hperm|].
  split; [|split; [|split]].
  - unfold FriendsList.friends, user_ids.
    eapply (NoDup_fmap_2_strong _ (filter _ userLocations)).
    + intros x y Hx Hy Hxy.
      apply list_elem_of_filter in Hx as [_ Hx].
      apply list_elem_of_filter in Hy as [_ Hy].
      apply list_elem_of_lookup in Hx as [i Hi].
      apply list_elem_of_lookup in Hy as [j Hj].
      assert (i = j) as ->.
      { eapply NoDup_lookup; [exact Hnd| |];
          unfold user_ids; rewrite list_lookup_fmap.
        - by rewrite Hi.
        - by rewrite Hj, Hxy. }
      congruence.
    + apply NoDup_filter.
      eapply NoDup_fmap_1. exact Hnd.
  - unfold FriendsList.friends. apply Forall_forall. intros f Hf.
    by apply list_elem_of_filter in Hf as [Hne _].
  - apply myLocation_Some.
  - apply myLocation_None.
Qed.

Lemma friends_list_shows_everyone_witness :
  length
    (FriendsList.rows
       [App.locationData (User.mk "u2" "u2@example.org" (Some "Ann Lee"%string))
          sample_room 5 6 None;
        App.locationData sample_user sample_room 1 2 None;
        App.locationData (User.mk "u3" "u3@example.org" None)
          sample_room 7 8 (Some "Floor"%string)] "u1")
  = 3%nat.
Proof.
  apply (friends_list_shows_everyone
           [App.locationData
              (User.mk "u2" "u2@example.org" (Some "Ann Lee"%string))
              sample_room 5 6 None;
            App.locationData sample_user sample_room 1 2 None;
            App.locationData (User.mk "u3" "u3@example.org" None)
              sample_room 7 8 (Some "Floor"%string)] "u1").
  apply (bool_decide_unpack _). reflexivity.
Defined.

(** Without the invariant the viewer's later entries are not shown. *)
Example friends_list_hides_duplicates :
  length
    (FriendsList.rows
       [App.locationData sample_user sample_room 1 2 None;
        App.locationData sample_user sample_room 3 4 None] "u1")
  = 1%nat.
Proof. reflexivity. Qed.

End FriendsListRows.

(** ** The venue selector *)

Section VenueSelection.

Import VenueSelector.

Lemma find_by_id venues venueId r :
  JS.find (fun v => String.eqb (Venue.id v) venueId) venues = Some r ->
  r ∈ venues /\ Venue.id r = venueId.
Proof.
  induction venues as [|v vs IH]; simpl; [done|].
  destruct (String.eqb_spec (Venue.id v) venueId) as [Heq|Hne].
  - intros [= <-]. split; [left|done].
  - intros H. destruct (IH H). split; [by right|done].
Qed.

Lemma find_by_id_unique venues v :
  NoDup (map Venue.id venues) ->
  v ∈ venues ->
  JS.find (fun w => String.eqb (Venue.id w) (Venue.id v)) venues = Some v.
Proof.
  induction venues as [|w ws IH]; simpl; intros Hnd Hin.
  - by apply elem_of_nil in Hin.
  - apply NoDup_cons in Hnd as [Hw Hnd].
    apply elem_of_cons in Hin as [->|Hin].
    + by rewrite String.eqb_refl.
    + destruct (String.eqb_spec (Venue.id w) (Venue.id v)) as [Heq|Hne].
      * exfalso. apply Hw. rewrite Heq. apply list_elem_of_fmap. eauto.
      * by apply IH.
Qed.

Lemma find_by_id_missing venues venueId :
  venueId ∉ map Venue.id venues ->
  JS.find (fun v => String.eqb (Venue.id v) venueId) venues = None.
Proof.
  induction venues as [|v vs IH]; simpl; [done|].
  intros Hnotin. apply not_elem_of_cons in Hnotin as [Hne Hnotin].
  destruct (String.eqb_spec (Venue.id v) venueId); [congruence|].
  by apply IH.
Qed.

Lemma truthy_nonempty s : s <> EmptyString -> JS.truthy s = true.
Proof. by destruct s. Qed.

(** X8. Venue selection round trip: when venue ids are distinct, choosing
    the select value of a listed venue whose id is neither empty nor
    ["none"] selects that very venue; the value shown for no venue
    deselects; an id that is not listed makes no call; and whatever is
    selected is a listed venue with the chosen id. *)
Theorem venue_selection_round_trip (venues : list Venue.t) (v : Venue.t) :
  NoDup (map Venue.id venues) ->
  v ∈ venues ->
  Venue.id v <> "none"%string ->
  Venue.id v <> ""%string ->
  handleVenueChange venues (select_value (Some v)) = Some (Some v)
  /\ handleVenueChange venues (select_value None) = Some None
  /\ (forall venueId,
         venueId <> "none"%string ->
         venueId ∉ map Venue.id venues ->
         handleVenueChange venues venueId = None)
  /\ (forall venueId r,
         handleVenueChange venues venueId = Some (Some r) ->
         r ∈ venues /\ Venue.id r = venueId /\ venueId <> "none"%string).
Proof.
  intros Hnd Hin Hnone Hempty. split; [|split; [done|split]].
  - unfold select_value, handleVenueChange.
    rewrite (truthy_nonempty _ Hempty).
    apply String.eqb_neq in Hnone. rewrite Hnone.
    by rewrite find_by_id_unique.
  - intros venueId Hne Hmiss. unfold handleVenueChange.
    apply String.eqb_neq in Hne. rewrite Hne.
    by rewrite find_by_id_missing.
  - intros venueId r. unfold handleVenueChange.
    destruct (String.eqb_spec venueId "none") as [->|Hne]; [done|].
    destruct (JS.find _ venues) as [r'|] eqn:Hfind; [|done].
    intros [= <-]. by destruct (find_by_id _ _ _ Hfind).
Qed.

Lemma venue_selection_round_trip_witness :
  handleVenueChange
    [Venue.mk "v0" "Arena" "" "{}"; Venue.mk "v1" "Hall" "" "{}"]
    (select_value (Some (Venue.mk "v1" "Hall" "" "{}")))
  = Some (Some (Venue.mk "v1" "Hall" "" "{}")).
Proof.
  apply (venue_selection_round_trip
           [Venue.mk "v0" "Arena" "" "{}"; Venue.mk "v1" "Hall" "" "{}"]
           (Venue.mk "v1" "Hall" "" "{}")).
  - apply (bool_decide_unpack _). reflexivity.
  - right. left.
  - discriminate.
  - discriminate.
Defined.

(** A venue whose id is the string "none" cannot be selected. *)
Example venue_named_none :
  handleVenueChange [Venue.mk "none" "Arena" "" "{}"]
    (select_value (Some (Venue.mk "none" "Arena" "" "{}")))
  = Some None.
Proof. reflexivity. Qed.

End VenueSelection.

(** ** The list of booth statuses *)

Section StatusList.

Import MerchBoothTracker.

Lemma shorter_line_total a b :
  shorter_line a b = true \/ shorter_line b a = true.
Proof. unfold shorter_line. rewrite !Z.leb_le. lia. Qed.

Lemma shorter_line_trans a b c :
  shorter_line a b = true -> shorter_line b c = true ->
  shorter_line a c = true.
Proof. unfold shorter_line. rewrite !Z.leb_le. lia. Qed.

(** Inserting a status does not reorder the statuses of any one average. *)
Lemma insert_by_shorter_line_stable n x l :
  filter (fun s => BoothStatus.avgLineLength s = n)
    (Db.insert_by shorter_line x l)
  = filter (fun s => BoothStatus.avgLineLength s = n) (x :: l).
Proof.
  induction l as [|y l IH]; simpl; [done|].
  destruct (shorter_line x y) eqn:Exy; [done|].
  unfold shorter_line in Exy. apply Z.leb_gt in Exy.
  rewrite (filter_cons _ y), IH, !filter_cons.
  repeat case_decide; try done; lia.
Qed.

Lemma sort_by_shorter_line_stable n l :
  filter (fun s => BoothStatus.avgLineLength s = n)
    (Db.sort_by shorter_line l)
  = filter (fun s => BoothStatus.avgLineLength s = n) l.
Proof.
  induction l as [|x l IH]; simpl; [done|].
  rewrite insert_by_shorter_line_stable, !filter_cons, IH. done.
Qed.

Lemma booth_status_booth booth rs :
  BoothStatus.booth (booth_status booth rs) = booth.
Proof. by destruct rs. Qed.

Lemma StronglySorted_weaken {A} (R R' : A -> A -> Prop) l :
  (forall a b, R a b -> R' a b) ->
  StronglySorted R l -> StronglySorted R' l.
Proof.
  intros HR. induction 1 as [|a l Hs IH Ha]; constructor; [done|].
  eapply Forall_impl; [exact Ha|]. intros b. apply HR.
Qed.

Lemma booths_of_statuses db bs :
  map BoothStatus.booth
    (map (fun booth =>
            booth_status booth
              (Db.list_line_reports db (MerchBooth.id booth) 20)) bs)
  = bs.
Proof.
  induction bs as [|b bs IH]; [done|].
  cbn [map]. by rewrite IH, booth_status_booth.
Qed.

(** X9. Order of the booth statuses: the statuses computed on a refresh
    are sorted by average line length, shortest first; they are exactly the
    statuses of the booths of the venue, one per booth and none of another
    venue; statuses of equal average keep the order in which the booths
    were listed. *)
Theorem statuses_shortest_line_first (db : Db.t) (venueId : string) :
  let fetched :=
    map (fun booth =>
           booth_status booth
             (Db.list_line_reports db (MerchBooth.id booth) 20))
        (Db.list_merch_booths db venueId) in
  let statuses := compute_statuses db venueId in
  StronglySorted
    (fun a b => BoothStatus.avgLineLength a <= BoothStatus.avgLineLength b)
    statuses
  /\ Permutation statuses fetched
  /\ Permutation (map BoothStatus.booth statuses)
       (Db.list_merch_booths db venueId)
  /\ Forall (fun s => MerchBooth.venue_id (BoothStatus.booth s) = venueId)
       statuses
  /\ (forall n,
         filter (fun s => BoothStatus.avgLineLength s = n) statuses
         = filter (fun s => BoothStatus.avgLineLength s = n) fetched).
Proof.
  intros fetched statuses.
  assert (Hperm : Permutation statuses fetched)
    by apply sort_by_Permutation.
  assert (Hbooths : map BoothStatus.booth fetched
                    = Db.list_merch_booths db venueId).
  { apply booths_of_statuses. }
  split; [|split; [done|split; [|split]]].
  - eapply StronglySorted_weaken;
      [|exact (sort_by_sorted shorter_line shorter_line_total
                 shorter_line_trans fetched)].
    intros a b Hab. by apply Z.leb_le.
  - by rewrite Hperm, Hbooths.
  - apply Forall_forall. intros s Hs.
    assert (Hin : BoothStatus.booth s ∈ Db.list_merch_booths db venueId).
    { rewrite <- Hbooths, <- Hperm. apply list_elem_of_fmap. eauto. }
    unfold Db.list_merch_booths in Hin.
    by apply list_elem_of_filter in Hin as [? _].
  - intros n. apply sort_by_shorter_line_stable.
Qed.

End StatusList.

(** ** Badges and ages *)

Section Badges.

Import MerchBoothTracker.

Lemma sum_Z_bounds lo hi zs :
  Forall (fun z => lo <= z <= hi) zs ->
  lo * Z.of_nat (length zs) <= sum_Z zs <= hi * Z.of_nat (length zs).
Proof.
  induction 1 as [|z zs Hz _ IH]; [simpl; lia|].
  cbn [sum_Z foldr length]. fold (sum_Z zs). lia.
Qed.

Lemma mean_bounds lo hi zs :
  zs <> [] ->
  Forall (fun z => lo <= z <= hi) zs ->
  (inject_Z lo <= mean zs)%Q /\ (mean zs <= inject_Z hi)%Q.
Proof.
  intros Hne Hall. unfold mean.
  destruct (sum_Z_bounds lo hi zs Hall) as [Hlo Hhi].
  assert (Hpos : (0 < inject_Z (Z.of_nat (length zs)))%Q).
  { change 0%Q with (inject_Z 0). rewrite <- Zlt_Qlt.
    destruct zs; [done|]. simpl. lia. }
  split.
  - apply Qle_shift_div_l; [done|].
    rewrite <- inject_Z_mult, <- Zle_Qle. done.
  - apply Qle_shift_div_r; [done|].
    rewrite <- inject_Z_mult, <- Zle_Qle. done.
Qed.

(** Rounding keeps a value between two integers between them. *)
Lemma Math_round_bounds lo hi m :
  (inject_Z lo <= m)%Q -> (m <= inject_Z hi)%Q ->
  lo <= JS.Math_round m <= hi.
Proof.
  intros Hlo Hhi. destruct (Math_round_rounds m) as [Hr1 Hr2].
  split.
  - apply Z.lt_succ_r. rewrite Zlt_Qlt.
    unfold Z.succ. rewrite inject_Z_plus. change (inject_Z 1) with 1%Q.
    revert Hlo Hr2. generalize (inject_Z lo) (inject_Z (JS.Math_round m)).
    intros a b Hlo Hr2. lra.
  - apply Z.lt_succ_r. rewrite Zlt_Qlt.
    unfold Z.succ. rewrite inject_Z_plus. change (inject_Z 1) with 1%Q.
    revert Hhi Hr1. generalize (inject_Z hi) (inject_Z (JS.Math_round m)).
    intros a b Hhi Hr1. lra.
Qed.

(** X10. The badge is defined: when every fetched report has a line
    length among 0, 1, 2, 3, the rounded average is again among 0, 1, 2, 3,
    so the label and the colour looked up for the badge exist. *)
Theorem badge_is_defined (booth : MerchBooth.t)
    (recentReports : list LineReport.t) :
  Forall (fun r => 0 <= LineReport.line_length r <= 3) recentReports ->
  let status := booth_status booth recentReports in
  0 <= BoothStatus.avgLineLength status <= 3
  /\ is_Some (LINE_LENGTH_LABELS (BoothStatus.avgLineLength status))
  /\ is_Some (LINE_LENGTH_COLORS (BoothStatus.avgLineLength status)).
Proof.
  intros Hall status.
  assert (Hrange : 0 <= BoothStatus.avgLineLength status <= 3).
  { subst status. destruct recentReports as [|r rs]; [simpl; lia|].
    rewrite booth_status_avgLineLength.
    destruct (mean_bounds 0 3 (line_lengths (r :: rs))) as [Hlo Hhi];
      [done| |by apply Math_round_bounds].
    unfold line_lengths. by apply Forall_fmap. }
  split; [done|].
  assert (Hcases : BoothStatus.avgLineLength status = 0
                   \/ BoothStatus.avgLineLength status = 1
                   \/ BoothStatus.avgLineLength status = 2
                   \/ BoothStatus.avgLineLength status = 3) by lia.
  destruct Hcases as [H | [H | [H | H]]]; rewrite H; split; by eexists.
Qed.

Lemma badge_is_defined_witness :
  is_Some
    (LINE_LENGTH_LABELS
       (BoothStatus.avgLineLength
          (booth_status sample_booth (Db.list_line_reports sample_db "b1" 20)))).
Proof.
  apply (badge_is_defined sample_booth (Db.list_line_reports sample_db "b1" 20)).
  vm_compute. repeat constructor; discriminate.
Defined.

(** One report outside the four levels, and the badge has no label. *)
Example badge_undefined_out_of_range :
  LINE_LENGTH_LABELS
    (BoothStatus.avgLineLength
       (booth_status sample_booth [with_line_length 7; with_line_length 3]))
  = None.
Proof. reflexivity. Qed.

Lemma show_int_examples :
  JS.show_int 0 = "0"%string /\ JS.show_int 59 = "59"%string
  /\ JS.show_int (-3) = "-3"%string.
Proof. repeat split; reflexivity. Qed.

(** X11. Age of the last report, for a timestamp that parses: under one
    minute (or in the future) it is "Just now"; from one minute to under an
    hour it is the whole minutes, 1 to 59, followed by "m ago"; from one
    hour to under a day it is the whole hours, 1 to 23, followed by
    "h ago"; from 24 hours on it is "Over 24h ago". *)
Theorem time_ago_buckets (getTime : string -> option Z) (now : Z)
    (timestamp : string) (reported : Z) :
  timestamp <> ""%string ->
  getTime timestamp = Some reported ->
  let age := now - reported in
  (age < 60000 -> getTimeAgo getTime now timestamp = "Just now"%string)
  /\ (60000 <= age < 3600000 ->
      getTimeAgo getTime now timestamp
      = JS.show_int (age / 60000) +:+ "m ago"
      /\ 1 <= age / 60000 <= 59)
  /\ (3600000 <= age < 86400000 ->
      getTimeAgo getTime now timestamp
      = JS.show_int (age / 3600000) +:+ "h ago"
      /\ 1 <= age / 3600000 <= 23)
  /\ (86400000 <= age ->
      getTimeAgo getTime now timestamp = "Over 24h ago"%string).
Proof.
  intros Hne Htime age. unfold getTimeAgo.
  rewrite (truthy_nonempty _ Hne), Htime. cbn [negb].
  change (1000 * 60) with 60000. fold age.
  assert (Hhours : age / 60000 / 60 = age / 3600000).
  { rewrite Z.div_div by lia. done. }
  rewrite Hhours.
  assert (Hmin : forall k, k * 60000 <= age <-> k <= age / 60000).
  { intros k. split; intros H.
    - apply Z.div_le_lower_bound; lia.
    - pose proof (Z.mul_div_le age 60000). lia. }
  assert (Hhr : forall k, k * 3600000 <= age <-> k <= age / 3600000).
  { intros k. split; intros H.
    - apply Z.div_le_lower_bound; lia.
    - pose proof (Z.mul_div_le age 3600000). lia. }
  pose proof (Hmin 1) as Hm1. pose proof (Hmin 60) as Hm60.
  pose proof (Hhr 1) as Hh1. pose proof (Hhr 24) as Hh24.
  repeat split; intros; 
    repeat (match goal with
            | |- context [(?a <? ?b)%Z] => destruct (Z.ltb_spec a b)
            end); try done; try lia.
Qed.

Lemma time_ago_buckets_witness :
  getTimeAgo (fun _ => Some 1717272000000) 1717274100000
    "2024-06-01T20:00:00.000Z"
  = "35m ago"%string.
Proof.
  destruct (time_ago_buckets (fun _ => Some 1717272000000) 1717274100000
              "2024-06-01T20:00:00.000Z" 1717272000000)
    as (_ & H & _); [discriminate|reflexivity|].
  destruct H as [H _]; [simpl; lia|]. rewrite H. reflexivity.
Defined.

(** What the age shows without a usable timestamp. *)
Lemma time_ago_without_timestamp getTime now booth timestamp :
  getTimeAgo getTime now
    (BoothStatus.lastReported (booth_status booth [])) = "No reports"%string
  /\ (timestamp <> ""%string -> getTime timestamp = None ->
      getTimeAgo getTime now timestamp = "Over 24h ago"%string).
Proof.
  split; [done|]. intros Hne Hnan. unfold getTimeAgo.
  by rewrite (truthy_nonempty _ Hne), Hnan.
Qed.

End Badges.

(** ** Every path of a submission *)

Section SubmissionPaths.

Import MerchBoothTracker.

Lemma truthy_false s : JS.truthy s = false <-> s = EmptyString.
Proof. by destruct s. Qed.

Lemma new_report_booth env st u row :
  new_report env st u = Some row ->
  LineReport.booth_id row = selectedBooth st
  /\ LineReport.user_id row = User.id u.
Proof.
  unfold new_report.
  destruct (JS.parseInt (reportLineLength st)) as [n|]; [|done]. simpl.
  destruct (if JS.truthy (reportWaitTime st)
            then Some <$> JS.parseInt (reportWaitTime st)
            else Some None) as [w|]; [|done].
  simpl. by intros [= <-].
Qed.

(** X12. A submission only appends: [submitReport] returns without doing
    anything exactly when no user is signed in, no booth is chosen or no
    line length is chosen; when it runs, booths and locations are
    untouched and the reports are the old ones followed by at most one new
    report, for the chosen booth; if the create fails nothing is added, the
    form keeps its values and no refresh is made; if it succeeds the form
    is cleared; either way the reporting flag is off afterwards. *)
Theorem submit_only_appends env venueId (db : Db.t) (st : State) :
  (submitReport env venueId db st = Ignored
   <-> user st = None
       \/ selectedBooth st = ""%string
       \/ reportLineLength st = ""%string)
  /\ (forall st' db' calls,
         submitReport env venueId db st = Ran st' db' calls ->
         Db.merch_booths db' = Db.merch_booths db
         /\ Db.user_locations db' = Db.user_locations db
         /\ exists added,
             Db.line_reports db' = Db.line_reports db ++ added
             /\ (length added <= 1)%nat
             /\ Forall (fun r => LineReport.booth_id r = selectedBooth st)
                  added
             /\ (create_ok env = false ->
                 added = [] /\ st' = stop_reporting st
                 /\ Forall (fun c => c <> ListMerchBooths venueId) calls)
             /\ (create_ok env = true ->
                 length added = 1%nat
                 /\ selectedBooth st' = ""%string
                 /\ reportLineLength st' = ""%string
                 /\ reportWaitTime st' = ""%string)
             /\ isReporting st' = false).
Proof.
  unfold submitReport. split.
  - destruct (user st) as [u|]; [|split; [by left|done]].
    destruct (JS.truthy (selectedBooth st)) eqn:Hb.
    + destruct (JS.truthy (reportLineLength st)) eqn:Hl; simpl.
      * split.
        -- destruct (new_report env st u); [|done].
           destruct (create_ok env); [|done].
           by destruct (loadBoothStatuses _ _ _ _).
        -- intros [?|[H|H]]; [done| |]; apply truthy_false in H; congruence.
      * split; [|done]. intros _. right. right. by apply truthy_false.
    + simpl. split; [|done]. intros _. right. left. by apply truthy_false.
  - intros st' db' calls.
    destruct (user st) as [u|]; [|done].
    destruct (JS.truthy (selectedBooth st) && JS.truthy (reportLineLength st));
      [|done].
    destruct (new_report env st u) as [row|] eqn:Hrow; [|done].
    destruct (new_report_booth _ _ _ _ Hrow) as [Hbooth _].
    destruct (create_ok env).
    + unfold loadBoothStatuses.
      destruct (list_ok env); intros [= <- <- <-]; simpl;
        (split; [done|]; split; [done|]; exists [row];
         repeat split; try done; by repeat constructor).
    + intros [= <- <- <-]. split; [done|]. split; [done|]. exists [].
      rewrite app_nil_r. repeat split; try done.
      * simpl. lia.
      * by repeat constructor.
Qed.

Example submit_failed_create_keeps_form :
  submitReport (mkEnv "2024-06-01T20:35:00.000Z" "1717274100000" "k3j9x2m1q"
                  false true) "v1" sample_db (sample_form "10")
  = Ran (sample_form "10") sample_db
      [CreateLineReport
         (LineReport.mk "report_1717274100000_k3j9x2m1q" "b1" "u1" 2 (Some 10)
            "2024-06-01T20:35:00.000Z")].
Proof. vm_compute. reflexivity. Qed.

Lemma submit_only_appends_witness :
  exists st' db' calls,
    submitReport sample_env "v1" sample_db (sample_form "10")
    = Ran st' db' calls
    /\ Db.user_locations db' = Db.user_locations sample_db.
Proof.
  destruct (submit_only_appends sample_env "v1" sample_db (sample_form "10"))
    as [_ H].
  eexists _, _, _. split; [vm_compute; reflexivity|].
  eapply H. vm_compute. reflexivity.
Defined.

End SubmissionPaths.

(** ** Writing, loading and leaving *)

Section WriteLoadLeave.

Import App.

(** X13. A location is published only if it was stored:
    [handleLocationUpdate] publishes at most one message, on the channel of
    the current room, carrying exactly the row it stored under
    "<userId>-<roomId>", after setting the viewer's pending location; with
    no user, no room or a failing upsert nothing changes and nothing is
    published; rows under other ids are never touched, and the list of
    locations is not changed by the click itself. *)
Theorem location_published_only_if_stored env (db : Db.t) (st : State)
    (x y : Q) (sectionName : option string) :
  let result := handleLocationUpdate env db st x y sectionName in
  userLocations result.1.2 = userLocations st
  /\ (length result.2 <= 1)%nat
  /\ (forall channel message,
         (channel, message) ∈ result.2 ->
         exists u room,
           user st = Some u /\ currentRoom st = Some room
           /\ channel = "room-" +:+ Room.id room
           /\ message = LocationUpdate (locationData u room x y sectionName)
           /\ Db.user_locations result.1.1
                !! (User.id u +:+ "-" +:+ Room.id room)
              = Some (locationData u room x y sectionName)
           /\ myLocation result.1.2 = Some (Point.mk x y))
  /\ (user st = None \/ currentRoom st = None \/ upsert_ok env = false ->
      result = (db, st, []))
  /\ (forall u room k,
         user st = Some u -> currentRoom st = Some room ->
         k <> User.id u +:+ "-" +:+ Room.id room ->
         Db.user_locations result.1.1 !! k = Db.user_locations db !! k).
Proof.
  intros result. subst result. unfold handleLocationUpdate.
  destruct (user st) as [u|] eqn:Hu, (currentRoom st) as [room|] eqn:Hr;
    try (simpl; repeat split; try done; try lia;
         intros ? ? Hin; by apply elem_of_nil in Hin).
  destruct (upsert_ok env) eqn:Hup, (publish_ok env) eqn:Hpub; simpl.
  - split; [done|]. split; [lia|]. split; [|split].
    + intros channel message Hin.
      apply list_elem_of_singleton in Hin as [= -> ->].
      exists u, room. repeat split; try done. apply lookup_insert_eq.
    + intros [?|[?|?]]; done.
    + intros u' room' k [= <-] [= <-] Hk. by rewrite lookup_insert_ne.
  - split; [done|]. split; [lia|]. split; [|split].
    + intros ? ? Hin. by apply elem_of_nil in Hin.
    + intros [?|[?|?]]; done.
    + intros u' room' k [= <-] [= <-] Hk. by rewrite lookup_insert_ne.
  - repeat split; try done; try lia.
    intros ? ? Hin. by apply elem_of_nil in Hin.
  - repeat split; try done; try lia.
    intros ? ? Hin. by apply elem_of_nil in Hin.
Qed.

Lemma location_published_only_if_stored_witness :
  handleLocationUpdate (mkEnv false true) sample_db sample_app 120 80 None
  = (sample_db, sample_app, []).
Proof.
  apply (location_published_only_if_stored (mkEnv false true) sample_db
           sample_app 120 80 None).
  right. right. reflexivity.
Defined.

Lemma entries_of_absent userId ls :
  userId ∉ user_ids ls -> entries_of userId ls = [].
Proof.
  unfold entries_of, user_ids.
  induction ls as [|l ls IH]; intros Hnotin; [done|].
  apply not_elem_of_cons in Hnotin as [Hne Hnotin].
  rewrite filter_cons. case_decide; [congruence|]. by apply IH.
Qed.

Lemma entries_of_member ls row :
  NoDup (user_ids ls) ->
  row ∈ ls ->
  entries_of (UserLocation.user_id row) ls = [row].
Proof.
  induction ls as [|l ls IH]; intros Hnd Hin; [by apply elem_of_nil in Hin|].
  apply NoDup_cons in Hnd as [Hl Hnd]. unfold entries_of. rewrite filter_cons.
  fold (entries_of (UserLocation.user_id row) ls).
  apply elem_of_cons in Hin as [->|Hin].
  - case_decide; [|done]. by rewrite entries_of_absent.
  - case_decide as Heq; [|by apply IH].
    exfalso. apply Hl. rewrite Heq. apply list_elem_of_fmap. eauto.
Qed.

Lemma find_user ls userId row :
  entries_of userId ls = [row] ->
  JS.find (fun loc => bool_decide (UserLocation.user_id loc = userId)) ls
  = Some row.
Proof.
  unfold entries_of. induction ls as [|l ls IH]; [done|].
  rewrite filter_cons. simpl. case_decide as Heq.
  - intros [= -> _]. by rewrite bool_decide_eq_true_2.
  - intros H. rewrite bool_decide_eq_false_2 by done. by apply IH.
Qed.

Lemma written_row_is_listed db row :
  row ∈ Db.list_user_locations (Db.upsert_user_location db row)
          (UserLocation.room_id row).
Proof.
  unfold Db.list_user_locations. apply list_elem_of_filter.
  split; [done|]. apply list_elem_of_fmap.
  exists (UserLocation.id row, row). split; [done|].
  apply elem_of_map_to_list. simpl. apply lookup_insert_eq.
Qed.

(** X14. Write then load: in a store keyed by "<userId>-<roomId>", after
    [handleLocationUpdate] has stored a click, loading the room gives the
    clicked point as the viewer's location and a list with exactly one
    entry for the viewer, the row just written, one entry per user, all of
    that room. *)
Theorem written_location_is_loaded env (db : Db.t) (st : State) (u : User.t)
    (room : Room.t) (x y : Q) (sectionName : option string) :
  user st = Some u ->
  currentRoom st = Some room ->
  upsert_ok env = true ->
  keyed_by_user_and_room (Db.user_locations db) ->
  let written := handleLocationUpdate env db st x y sectionName in
  let loaded := loadRoomLocations written.1.1 written.1.2 (Room.id room) in
  myLocation loaded = Some (Point.mk x y)
  /\ entries_of (User.id u) (userLocations loaded)
     = [locationData u room x y sectionName]
  /\ NoDup (user_ids (userLocations loaded))
  /\ Forall (fun l => UserLocation.room_id l = Room.id room)
       (userLocations loaded).
Proof.
  intros Hu Hr Hok Hkeyed written loaded.
  destruct (handleLocationUpdate_db env db st u room x y sectionName Hu Hr Hok)
    as (Hdb & Hu' & _).
  fold written in Hdb, Hu'.
  set (row := locationData u room x y sectionName) in *.
  assert (Hnd : NoDup (user_ids (Db.list_user_locations written.1.1
                                   (Room.id room)))).
  { rewrite Hdb. apply list_user_locations_user_ids.
    by apply upsert_keeps_keyed. }
  assert (Hin : row ∈ Db.list_user_locations written.1.1 (Room.id room)).
  { rewrite Hdb. apply (written_row_is_listed db row). }
  pose proof (entries_of_member _ _ Hnd Hin) as Hentries.
  change (UserLocation.user_id row) with (User.id u) in Hentries.
  subst loaded. unfold loadRoomLocations. rewrite Hu'.
  cbn [myLocation userLocations].
  rewrite (find_user _ _ _ Hentries).
  repeat split; try done.
  unfold Db.list_user_locations. apply Forall_forall. intros l Hl.
  by apply list_elem_of_filter in Hl as [? _].
Qed.

Lemma written_location_is_loaded_witness :
  myLocation
    (loadRoomLocations
       (handleLocationUpdate (mkEnv true false) sample_db sample_app
          120 80 None).1.1
       (handleLocationUpdate (mkEnv true false) sample_db sample_app
          120 80 None).1.2
       "R1")
  = Some (Point.mk 120 80).
Proof.
  apply (written_location_is_loaded (mkEnv true false) sample_db sample_app
           sample_user sample_room 120 80 None); try reflexivity.
  intros k row Hrow. simpl in Hrow. by rewrite lookup_empty in Hrow.
Defined.

(** X15. Leaving undoes the write: after a location update, [leaveRoom]
    (both backend calls succeeding) leaves no row under the user's id and
    every other row as it was before the update, so a store that had no
    row for the user is restored exactly; reports are untouched; it
    publishes one user-left message on the room's channel, which removes
    the user's entry at every receiver, then reports the room as left,
    which clears the room, the list and the pending location; the room's
    listing no longer holds the user. *)
Theorem leaving_removes_what_was_written envW envL (db : Db.t) (st : State)
    (u : User.t) (room : Room.t) (x y : Q) (sectionName : option string) :
  user st = Some u ->
  currentRoom st = Some room ->
  upsert_ok envW = true ->
  RoomManager.publish_ok envL = true ->
  RoomManager.delete_ok envL = true ->
  let id := User.id u +:+ "-" +:+ Room.id room in
  let written := (handleLocationUpdate envW db st x y sectionName).1.1 in
  let left := RoomManager.leaveRoom envL written u (Some room) in
  Db.user_locations left.1.1 !! id = None
  /\ (forall k, k <> id ->
                Db.user_locations left.1.1 !! k = Db.user_locations db !! k)
  /\ (Db.user_locations db !! id = None ->
      Db.user_locations left.1.1 = Db.user_locations db)
  /\ Db.line_reports left.1.1 = Db.line_reports db
  /\ left.1.2 = [("room-" +:+ Room.id room, UserLeft (User.id u))]
  /\ left.2 = Some None
  /\ (forall prev, entries_of (User.id u)
                     (on_message (UserLeft (User.id u)) prev) = [])
  /\ (let st' := onRoomChange left.1.1 st None in
      currentRoom st' = None /\ userLocations st' = []
      /\ myLocation st' = None)
  /\ (keyed_by_user_and_room (Db.user_locations db) ->
      entries_of (User.id u)
        (Db.list_user_locations left.1.1 (Room.id room)) = []).
Proof.
  intros Hu Hr Hok Hpub Hdel id written left.
  destruct (handleLocationUpdate_db envW db st u room x y sectionName Hu Hr Hok)
    as (Hdb & _ & _).
  fold written in Hdb. subst left. unfold RoomManager.leaveRoom.
  rewrite Hpub, Hdel, Hdb. cbn. fold id.
  split; [apply lookup_delete_eq|].
  split; [intros k Hk; by rewrite lookup_delete_ne, lookup_insert_ne|].
  split; [intros Hnone; by rewrite delete_insert_eq, delete_id|].
  split; [done|]. split; [done|]. split; [done|].
  split; [intros prev; apply user_left_removes|].
  split; [done|].
  intros Hkeyed.
  set (db2 := Db.delete_user_location
                (Db.upsert_user_location db
                   (locationData u room x y sectionName)) id).
  change (entries_of (User.id u) (Db.list_user_locations db2 (Room.id room))
          = []).
  assert (Hkeyed2 : keyed_by_user_and_room (Db.user_locations db2)).
  { intros k row Hrow. subst db2. simpl in Hrow.
    apply lookup_delete_Some in Hrow as [_ Hrow].
    by apply (upsert_keeps_keyed db u room x y sectionName Hkeyed k row). }
  apply entries_of_absent. intros Hin.
  apply list_elem_of_fmap in Hin as (l & Huser & Hl). symmetry in Huser.
  unfold Db.list_user_locations in Hl.
  apply list_elem_of_filter in Hl as [Hroom Hl].
  apply list_elem_of_fmap in Hl as ([k r] & -> & Hkr).
  apply elem_of_map_to_list in Hkr. simpl in *.
  destruct (Hkeyed2 _ _ Hkr) as [-> Hid].
  rewrite Hid, Huser, Hroom in Hkr. fold id in Hkr.
  subst db2. simpl in Hkr. by rewrite lookup_delete_eq in Hkr.
Qed.

Lemma leaving_removes_what_was_written_witness :
  Db.user_locations
    (RoomManager.leaveRoom (RoomManager.mkEnv true true)
       (handleLocationUpdate (mkEnv true true) sample_db sample_app
          120 80 None).1.1
       sample_user (Some sample_room)).1.1
  = Db.user_locations sample_db.
Proof.
  apply (leaving_removes_what_was_written (mkEnv true true)
           (RoomManager.mkEnv true true) sample_db sample_app sample_user
           sample_room 120 80 None); reflexivity.
Defined.

(** X16. A failed leave keeps the row: if the publish fails, [leaveRoom]
    changes nothing and the room is not left; if the publish succeeds and
    the delete fails, the user-left message has been sent but the stored
    row remains, the room is not left, and a later listing of the room
    still holds the user's row; with no current room nothing happens. *)
Theorem failed_leave_keeps_the_row envL (db : Db.t) (u : User.t)
    (room : Room.t) (row : UserLocation.t) :
  keyed_by_user_and_room (Db.user_locations db) ->
  Db.user_locations db !! (User.id u +:+ "-" +:+ Room.id room) = Some row ->
  let left := RoomManager.leaveRoom envL db u (Some room) in
  (RoomManager.publish_ok envL = false -> left = (db, [], None))
  /\ (RoomManager.publish_ok envL = true ->
      RoomManager.delete_ok envL = false ->
      left = (db, [("room-" +:+ Room.id room, UserLeft (User.id u))], None)
      /\ entries_of (UserLocation.user_id row)
           (Db.list_user_locations left.1.1 (UserLocation.room_id row))
         = [row])
  /\ RoomManager.leaveRoom envL db u None = (db, [], None).
Proof.
  intros Hkeyed Hrow left. subst left. unfold RoomManager.leaveRoom.
  split; [by intros ->|]. split; [|done].
  intros -> ->. split; [done|]. cbn [fst].
  apply entries_of_member.
  - by apply list_user_locations_user_ids.
  - unfold Db.list_user_locations. apply list_elem_of_filter.
    split; [done|]. apply list_elem_of_fmap.
    exists (User.id u +:+ "-" +:+ Room.id room, row). split; [done|].
    by apply elem_of_map_to_list.
Qed.

Lemma failed_leave_keeps_the_row_witness :
  RoomManager.leaveRoom (RoomManager.mkEnv false true)
    (handleLocationUpdate (mkEnv true true) sample_db sample_app
       120 80 None).1.1
    sample_user (Some sample_room)
  = ((handleLocationUpdate (mkEnv true true) sample_db sample_app
        120 80 None).1.1, [], None).
Proof.
  destruct (failed_leave_keeps_the_row (RoomManager.mkEnv false true)
              (handleLocationUpdate (mkEnv true true) sample_db sample_app
                 120 80 None).1.1
              sample_user sample_room
              (locationData sample_user sample_room 120 80 None))
    as [H _].
  - apply (upsert_keeps_keyed sample_db sample_user sample_room 120 80 None).
    intros k row Hrow. simpl in Hrow. by rewrite lookup_empty in Hrow.
  - apply lookup_insert_eq.
  - apply H. reflexivity.
Defined.

End WriteLoadLeave.

(** ** Sequences of realtime messages *)

Section MessageSequences.

Import App.

Lemma filter_others_keeps userId other prev :
  other <> userId ->
  entries_of userId
    (filter (fun loc => UserLocation.user_id loc ≠ other) prev)
  = entries_of userId prev.
Proof.
  intros Hne. unfold entries_of.
  induction prev as [|l prev IH]; [done|].
  rewrite (filter_cons _ l prev). case_decide as Hl.
  - rewrite !filter_cons. case_decide; by rewrite IH.
  - rewrite filter_cons. case_decide; [congruence|done].
Qed.

(** A message about another user leaves a user's entries as they are. *)
Lemma on_message_other userId message prev :
  ~ about_user userId message ->
  entries_of userId (on_message message prev) = entries_of userId prev.
Proof.
  destruct message as [data|leaver|type]; simpl; intros Hne; [| |done].
  - rewrite entries_of_app.
    rewrite (filter_others_keeps userId (UserLocation.user_id data) prev Hne).
    unfold entries_of at 2. rewrite filter_cons. case_decide; [done|].
    by rewrite app_nil_r.
  - exact (filter_others_keeps userId leaver prev Hne).
Qed.

Lemma receive_room st message :
  currentRoom (receive st message) = currentRoom st.
Proof. unfold receive. by destruct (currentRoom st) eqn:E. Qed.

Lemma receive_others userId st messages :
  Forall (fun m => ~ about_user userId m) messages ->
  entries_of userId (userLocations (foldl receive st messages))
  = entries_of userId (userLocations st).
Proof.
  intros Hall. revert st.
  induction Hall as [|m ms Hm _ IH]; intros st; [done|].
  simpl. rewrite IH. unfold receive.
  destruct (currentRoom st); [|done]. simpl. by apply on_message_other.
Qed.

Lemma receive_in_room st room message :
  currentRoom st = Some room ->
  userLocations (receive st message)
  = on_message message (userLocations st).
Proof. intros H. unfold receive. by rewrite H. Qed.

Lemma foldl_receive_room st messages :
  currentRoom (foldl receive st messages) = currentRoom st.
Proof.
  revert st. induction messages as [|m ms IH]; intros st; [done|].
  simpl. by rewrite IH, receive_room.
Qed.

(** X17. The last message about a user wins: while a room is joined, after
    any sequence of messages in which the last one about a user is a
    location update, the list holds exactly that update's row for the user;
    when the last one is a user-left message it holds none; messages about
    other users, and messages of other types, never change a user's
    entries. *)
Theorem last_message_wins (st : State) (room : Room.t)
    (before after : list Message) (data : UserLocation.t) :
  currentRoom st = Some room ->
  Forall (fun m => ~ about_user (UserLocation.user_id data) m) after ->
  entries_of (UserLocation.user_id data)
    (userLocations
       (foldl receive st (before ++ LocationUpdate data :: after)))
  = [data]
  /\ entries_of (UserLocation.user_id data)
       (userLocations
          (foldl receive st
             (before ++ UserLeft (UserLocation.user_id data) :: after)))
     = []
  /\ (forall userId messages,
         Forall (fun m => ~ about_user userId m) messages ->
         entries_of userId (userLocations (foldl receive st messages))
         = entries_of userId (userLocations st)).
Proof.
  intros Hroom Hafter.
  assert (Hroom' : currentRoom (foldl receive st before) = Some room).
  { by rewrite foldl_receive_room. }
  split; [|split].
  - rewrite foldl_app. simpl. rewrite receive_others by done.
    rewrite (receive_in_room _ room) by done.
    apply location_update_replaces.
  - rewrite foldl_app. simpl. rewrite receive_others by done.
    rewrite (receive_in_room _ room) by done.
    apply user_left_removes.
  - intros userId messages. apply receive_others.
Qed.

Lemma last_message_wins_witness :
  entries_of "u1"
    (userLocations
       (foldl receive sample_app
          ([LocationUpdate (locationData sample_user sample_room 1 2 None)]
           ++ LocationUpdate (locationData sample_user sample_room 3 4 None)
           :: [UserLeft "u2"; OtherMessage "typing"])))
  = [locationData sample_user sample_room 3 4 None].
Proof.
  apply (last_message_wins sample_app sample_room
           [LocationUpdate (locationData sample_user sample_room 1 2 None)]
           [UserLeft "u2"; OtherMessage "typing"]
           (locationData sample_user sample_room 3 4 None)).
  - reflexivity.
  - repeat constructor; simpl; [discriminate|tauto].
Defined.

Lemma length_without_user userId prev :
  NoDup (user_ids prev) ->
  length (filter (fun loc => UserLocation.user_id loc ≠ userId) prev)
  = if decide (userId ∈ user_ids prev) then pred (length prev)
    else length prev.
Proof.
  unfold user_ids. induction prev as [|l prev IH]; intros Hnd.
  - by destruct (decide (userId ∈ map UserLocation.user_id [])).
  - apply NoDup_cons in Hnd as [Hl Hnd]. specialize (IH Hnd).
    rewrite filter_cons. cbn [map length].
    destruct (decide (UserLocation.user_id l = userId)) as [Heq|Hne].
    + subst userId. rewrite decide_False by (intros H; by apply H).
      rewrite decide_True by left.
      rewrite IH. rewrite decide_False by done. done.
    + rewrite decide_True by done. simpl. rewrite IH.
      destruct (decide (userId ∈ map UserLocation.user_id prev)) as [Hin|Hnin].
      * rewrite decide_True by (by right).
        destruct prev; [by apply elem_of_nil in Hin|done].
      * rewrite decide_False; [done|].
        intros Hin. apply elem_of_cons in Hin as [?|?]; congruence.
Qed.

(** X18. The online count: on a list with one entry per user, a location
    update adds one to the length when the user is new and leaves it
    unchanged otherwise; a user-left message takes one off when the user
    is listed and leaves it unchanged otherwise; without a room joined,
    messages change nothing. *)
Theorem online_count (prev : list UserLocation.t) (data : UserLocation.t)
    (leaver : string) (st : State) (messages : list Message) :
  NoDup (user_ids prev) ->
  length (on_message (LocationUpdate data) prev)
  = (if decide (UserLocation.user_id data ∈ user_ids prev)
     then length prev else S (length prev))
  /\ length (on_message (UserLeft leaver) prev)
     = (if decide (leaver ∈ user_ids prev)
        then pred (length prev) else length prev)
  /\ (currentRoom st = None -> foldl receive st messages = st).
Proof.
  intros Hnd. simpl. rewrite length_app, !length_without_user by done.
  split; [|split; [done|]].
  - case_decide as Hin; simpl; [|lia].
    destruct prev; [by apply elem_of_nil in Hin|simpl; lia].
  - intros Hnone. induction messages as [|m ms IH]; [done|].
    simpl. unfold receive at 2. by rewrite Hnone.
Qed.

Lemma online_count_witness :
  length
    (on_message
       (LocationUpdate (locationData sample_user sample_room 3 4 None))
       [locationData sample_user sample_room 1 2 None])
  = 1%nat.
Proof.
  apply (online_count [locationData sample_user sample_room 1 2 None]
           (locationData sample_user sample_room 3 4 None) "u2" sample_app []).
  apply (bool_decide_unpack _). reflexivity.
Defined.

End MessageSequences.

(** ** From a click to the friends list *)

Section ClickToText.

Import SeatingChart.

Lemma coordinates_text_nonempty location :
  FriendsList.coordinates_text location <> EmptyString.
Proof. unfold FriendsList.coordinates_text. simpl. discriminate. Qed.

(** X19. From a click to the friends list: for a click outside a drag,
    the text shown for the row built from it is never empty; it is the
    name of the section hit when that name is not empty, and the rounded
    coordinates "(x, y)", each within a half of the clicked coordinate,
    when no section is hit. *)
Theorem clicked_section_is_shown venueData rect (view : State)
    (e : MouseEvent) (u : User.t) (room : Room.t) :
  isDragging view = false ->
  exists sel,
    handleChartClick venueData (Some rect) view e = Some sel
    /\ let row :=
         App.locationData u room (sel_x sel) (sel_y sel)
           (sel_sectionName sel) in
       FriendsList.getLocationText row <> EmptyString
       /\ (forall section,
              JS.find (section_hit (sel_x sel) (sel_y sel))
                (VenueData.sections venueData) = Some section ->
              VenueSection.name section <> EmptyString ->
              FriendsList.getLocationText row = VenueSection.name section)
       /\ (JS.find (section_hit (sel_x sel) (sel_y sel))
             (VenueData.sections venueData) = None ->
           FriendsList.getLocationText row
           = "(" +:+ JS.show_int (JS.Math_round (sel_x sel)) +:+ ", "
                 +:+ JS.show_int (JS.Math_round (sel_y sel)) +:+ ")")
       /\ rounds_to (sel_x sel) (JS.Math_round (sel_x sel))
       /\ rounds_to (sel_y sel) (JS.Math_round (sel_y sel)).
Proof.
  intros Hdrag. unfold handleChartClick. rewrite Hdrag.
  eexists. split; [reflexivity|]. cbn [sel_x sel_y sel_sectionName].
  set (p := click_to_logical rect view e).
  split; [|split; [|split; [|split; apply Math_round_rounds]]].
  - unfold FriendsList.getLocationText. cbn [UserLocation.section_name App.locationData].
    destruct (JS.find _ _) as [s|]; simpl;
      [|apply coordinates_text_nonempty].
    destruct (VenueSection.name s) eqn:Hname; simpl; [|done].
    apply coordinates_text_nonempty.
  - intros section Hfind Hname.
    unfold FriendsList.getLocationText.
    cbn [UserLocation.section_name App.locationData].
    rewrite Hfind. simpl. by rewrite truthy_nonempty.
  - intros Hfind. unfold FriendsList.getLocationText.
    cbn [UserLocation.section_name App.locationData].
    by rewrite Hfind.
Qed.

Lemma clicked_section_is_shown_witness :
  exists sel,
    handleChartClick (VenueData.mk [floor_section]) (Some (mkRect 0 0))
      initial (mkMouse 0 200 200) = Some sel
    /\ FriendsList.getLocationText
         (App.locationData sample_user sample_room (sel_x sel) (sel_y sel)
            (sel_sectionName sel))
       = "Floor"%string.
Proof.
  destruct (clicked_section_is_shown (VenueData.mk [floor_section])
              (mkRect 0 0) initial (mkMouse 0 200 200) sample_user
              sample_room eq_refl) as (sel & Hsel & _ & Hname & _).
  exists sel. split; [exact Hsel|].
  injection Hsel as <-.
  apply (Hname floor_section); [reflexivity|discriminate].
Defined.

Example coordinates_text_example :
  FriendsList.getLocationText
    (App.locationData sample_user sample_room (401 # 2) (-(7 # 2)) None)
  = "(201, -3)"%string.
Proof. reflexivity. Qed.

End ClickToText.
